(** * notes-backend: the notes and login controllers

    A shallow embedding of [controllers/notes.js] and [controllers/login.js].
    The two Mongoose collections are finite maps from document id to
    document, the Express response object is a record that remembers what
    was sent, and a handler is a state transformer over both that may throw.
    Thrown errors keep the state reached so far, as a JavaScript [try]/[catch]
    does. *)

From Stdlib Require Import String Ascii List Bool Arith Lia.
From stdpp Require Import gmap strings list fin_maps.

Open Scope string_scope.

(** ** JavaScript strings and truthiness *)
Module Js.

(** [!!s] for a string: only the empty string is falsy. *)
Definition truthy_string (s : string) : bool :=
  match s with
  | EmptyString => false
  | String _ _ => true
  end.

(** [!!x] for a value that is a string or [undefined]. *)
Definition truthy (x : option string) : bool :=
  match x with
  | None => false
  | Some s => truthy_string s
  end.

(** [s.startsWith(p)]. *)
Definition startsWith (s p : string) : bool := String.prefix p s.

(** [s.slice(n)]: the characters of [s] from position [n] on. *)
Definition slice_from (n : nat) (s : string) : string :=
  String.substring n (String.length s - n) s.

(** [s.replace(pat, rep)] with a string pattern: the first occurrence of
    [pat] (searched with indexOf) is replaced, later ones are kept, and a
    string without occurrence is returned as it is. The replacement
    strings used by the controllers have no [$] patterns. *)
Definition replace (s pat rep : string) : string :=
  match String.index 0 pat s with
  | None => s
  | Some i =>
      String.substring 0 i s ++ rep ++ slice_from (i + String.length pat) s
  end.

(** [x || false] for a value that is a boolean or [undefined]. *)
Definition or_false (x : option bool) : bool :=
  match x with
  | Some b => b
  | None => false
  end.

End Js.

(** ** Documents *)

(** A note document, without its [_id] (the key it is stored under). The
    [user] field holds the id of the owning user; the collection itself can
    hold notes without one. *)
Record Note := mkNote {
  content : string;
  important : bool;
  user : option string
}.

(** A user document, without its [_id]. *)
Record User := mkUser {
  username : string;
  name : option string;
  passwordHash : string;
  notes : list string
}.

(** The object a token decodes to. Either property can be missing. *)
Record Payload := mkPayload {
  payload_username : option string;
  payload_id : option string
}.

(** A note as [populate("user", {username: 1, name: 1})] returns it: the
    owner id is replaced by the owner's projection, or by null when the
    reference does not resolve. *)
Record PopulatedNote := mkPopulated {
  pop_id : string;
  pop_content : string;
  pop_important : bool;
  pop_user : option (string * string * option string)
}.

(** ** Requests *)

Record NoteBody := mkNoteBody {
  body_content : option string;
  body_important : option bool
}.

Record LoginBody := mkLoginBody {
  body_username : string;
  body_password : string
}.

Record Request (B : Type) := mkRequest {
  authorization : option string;
  params_id : string;
  body : B
}.
Arguments mkRequest {B} _ _ _.
Arguments authorization {B} _.
Arguments params_id {B} _.
Arguments body {B} _.

(** ** Errors and responses *)

Inductive Error :=
| CastError           (* Mongoose: the id is not in ObjectId format *)
| ValidationError     (* Mongoose: the document fails its schema *)
| JsonWebTokenError   (* jsonwebtoken: the token is missing or does not verify *)
| TypeError           (* a property read on null *)
| HeadersSentError.   (* Node: ERR_HTTP_HEADERS_SENT *)

Inductive Json :=
| JNote (id : string) (n : Note)
| JNull
| JNotes (l : list PopulatedNote)
| JError (msg : string)
| JErrorMessage (msg : string)
| JLogin (token uname : string) (nm : option string).

(** The response object: the status code set so far, and what went out to
    the client (status and body; no body after [end()]). Once something was
    sent the client sees nothing else. *)
Record Response := mkResponse {
  statusCode : nat;
  sent : option (nat * option Json)
}.

Definition fresh_response : Response := mkResponse 200 None.

(** Calls to the stores and to the token and hashing libraries, in the order
    the handler makes them. *)
Inductive Call :=
| Call_jwt_verify (token : option string)
| Call_jwt_sign (p : Payload)
| Call_bcrypt_compare (password hash : string)
| Call_User_findById (id : option string)
| Call_User_findOne (uname : string)
| Call_User_save (id : string)
| Call_Note_find
| Call_Note_findById (id : string)
| Call_Note_save
| Call_Note_findByIdAndRemove (id : string)
| Call_Note_findByIdAndUpdate (id : string).

(** ** The state a handler runs in *)
Record World := mkWorld {
  note_store : gmap string Note;
  user_store : gmap string User;
  response : Response;
  calls : list Call;
  forwarded : option Error      (* the argument of [next(error)] *)
}.

Definition initial (ns : gmap string Note) (us : gmap string User) : World :=
  mkWorld ns us fresh_response [] None.

Definition with_notes (ns : gmap string Note) (w : World) : World :=
  mkWorld ns (user_store w) (response w) (calls w) (forwarded w).
Definition with_users (us : gmap string User) (w : World) : World :=
  mkWorld (note_store w) us (response w) (calls w) (forwarded w).
Definition with_response (r : Response) (w : World) : World :=
  mkWorld (note_store w) (user_store w) r (calls w) (forwarded w).
Definition with_call (c : Call) (w : World) : World :=
  mkWorld (note_store w) (user_store w) (response w) (calls w ++ [c]) (forwarded w).
Definition with_forwarded (e : Error) (w : World) : World :=
  mkWorld (note_store w) (user_store w) (response w) (calls w) (Some e).

(** ** The handler monad: state, with exceptions that keep the state *)
Inductive Result (A : Type) :=
| Ret (a : A)
| Throw (e : Error).
Arguments Ret {A} _.
Arguments Throw {A} _.

Definition M (A : Type) : Type := World -> Result A * World.

Definition ret {A} (a : A) : M A := fun w => (Ret a, w).
Definition throw {A} (e : Error) : M A := fun w => (Throw e, w).
Definition bind {A B} (m : M A) (k : A -> M B) : M B :=
  fun w =>
    match m w with
    | (Ret a, w') => k a w'
    | (Throw e, w') => (Throw e, w')
    end.

(** [try { m } catch (error) { h(error) }]. *)
Definition try_catch (m : M unit) (h : Error -> M unit) : M unit :=
  fun w =>
    match m w with
    | (Ret a, w') => (Ret a, w')
    | (Throw e, w') => h e w'
    end.

Declare Scope handler_scope.
Delimit Scope handler_scope with handler.
Notation "x <- m ;; k" := (bind m (fun x => k))
  (at level 100, m at next level, right associativity) : handler_scope.
Notation "m ;; k" := (bind m (fun _ => k))
  (at level 100, right associativity) : handler_scope.
Open Scope handler_scope.

Definition get_world : M World := fun w => (Ret w, w).
Definition modify (f : World -> World) : M unit := fun w => (Ret tt, f w).
Definition record (c : Call) : M unit := modify (with_call c).

(** Reading a property of [x] when [x] may be null. *)
Definition deref {A} (x : option A) : M A :=
  match x with
  | Some a => ret a
  | None => throw TypeError
  end.

(** [when c m]: an [if] without [else]. *)
Definition when (c : bool) (m : M unit) : M unit :=
  if c then m else ret tt.

(** The world a handler leaves, whatever it returned. *)
Definition exec {A} (m : M A) (w : World) : World := snd (m w).

(** ** The Express response object and [next] *)
Module Express.

(** [response.status(n)] sets the status code; it sends nothing. *)
Definition status (n : nat) : M unit :=
  modify (fun w => with_response (mkResponse n (sent (response w))) w).

Definition write (b : option Json) (w : World) : World :=
  with_response
    (mkResponse (statusCode (response w)) (Some (statusCode (response w), b))) w.

(** [response.json(b)]: sends the body under the current status code.
    On a response that was already sent, setting the content type throws
    (headers cannot be set after they are sent). *)
Definition json (b : Json) : M unit :=
  fun w =>
    match sent (response w) with
    | Some _ => (Throw HeadersSentError, w)
    | None => (Ret tt, write (Some b) w)
    end.

(** [response.send(obj)] with an object is [response.json(obj)]. *)
Definition send (b : Json) : M unit := json b.

(** [response.end()]: sends the status without a body. *)
Definition end_ : M unit :=
  fun w =>
    match sent (response w) with
    | Some _ => (Ret tt, w)
    | None => (Ret tt, write None w)
    end.

(** [next(error)] hands the error to the error-handling middleware. *)
Definition next (e : Error) : M unit := modify (with_forwarded e).

End Express.

(** ** What the controllers take from their environment

    The identifier format accepted by the stores, token verification and
    signing under [process.env.SECRET], and the password check. The
    controllers are verified for every choice of these. *)
Record Env := mkEnv {
  valid_id : string -> bool;
  jwt_verify : string -> option Payload;   (* [None]: verification throws *)
  jwt_sign : Payload -> string;
  bcrypt_compare : string -> string -> bool
}.

(** Modelled from the spec: the Note schema of [models/note.js], which the
    controllers import and which is not among the sources. The spec makes
    [content] required, non-empty text; nothing else is validated. *)
Definition Note_schema_accepts (c : option string) : bool := Js.truthy c.

(** The update document [{ content, important }] applied to a stored note:
    a field that is given is set, an [undefined] one is dropped from the
    update; the owner is never part of it. *)
Definition apply_update (c : option string) (imp : option bool) (n : Note) : Note :=
  mkNote (default (content n) c) (default (important n) imp) (user n).

(** ** The two Mongoose models *)
Section Mongoose.
Context (env : Env).

(** [User.findById(id)]. An [undefined] id is looked up as null and finds
    nothing; an id outside the identifier format is a cast error. *)
Definition User_findById (id : option string) : M (option (string * User)) :=
  record (Call_User_findById id) ;;
  match id with
  | None => ret None
  | Some i =>
      if valid_id env i
      then w <- get_world ;; ret (pair i <$> user_store w !! i)
      else throw CastError
  end.

(** [User.findOne({ username })]. *)
Definition User_findOne (uname : string) : M (option (string * User)) :=
  record (Call_User_findOne uname) ;;
  w <- get_world ;;
  ret (List.find (fun d => String.eqb (username (snd d)) uname)
                 (map_to_list (user_store w))).

(** [user.save()] on a document that was read from the store. *)
Definition User_save (d : string * User) : M unit :=
  record (Call_User_save (fst d)) ;;
  modify (fun w => with_users (<[fst d := snd d]> (user_store w)) w).

Definition populate (us : gmap string User) (d : string * Note) : PopulatedNote :=
  mkPopulated (fst d) (content (snd d)) (important (snd d))
    (uid ← user (snd d) ; u ← us !! uid ; Some (uid, username u, name u)).

(** [Note.find({}).populate("user", { username: 1, name: 1 })]. *)
Definition Note_find_populate : M (list PopulatedNote) :=
  record Call_Note_find ;;
  w <- get_world ;;
  ret (populate (user_store w) <$> map_to_list (note_store w)).

(** [Note.findById(id)]. *)
Definition Note_findById (id : string) : M (option (string * Note)) :=
  record (Call_Note_findById id) ;;
  if valid_id env id
  then w <- get_world ;; ret (pair id <$> note_store w !! id)
  else throw CastError.

(** [new Note({ content, important, user }).save()]. The document gets an
    id that no stored note has; the schema is checked before the insert. *)
Definition Note_save (c : option string) (imp : bool) (owner : string)
  : M (string * Note) :=
  record Call_Note_save ;;
  match c with
  | Some s =>
      if Note_schema_accepts c
      then w <- get_world ;;
           let id := fresh (dom (note_store w)) in
           let n := mkNote s imp (Some owner) in
           modify (with_notes (<[id := n]> (note_store w))) ;;
           ret (id, n)
      else throw ValidationError
  | None => throw ValidationError
  end.

(** [Note.findByIdAndRemove(id)]: resolves also when nothing matched. *)
Definition Note_findByIdAndRemove (id : string) : M (option (string * Note)) :=
  record (Call_Note_findByIdAndRemove id) ;;
  if valid_id env id
  then w <- get_world ;;
       modify (with_notes (delete id (note_store w))) ;;
       ret (pair id <$> note_store w !! id)
  else throw CastError.

(** [Note.findByIdAndUpdate(id, { content, important }, { new: true })].
    No validators run on an update. A field given in the update is set;
    an [undefined] one is dropped from the update. The result is the
    document after the update, or null when nothing matched. *)
Definition Note_findByIdAndUpdate (id : string)
    (c : option string) (imp : option bool) : M (option (string * Note)) :=
  record (Call_Note_findByIdAndUpdate id) ;;
  if valid_id env id
  then w <- get_world ;;
       match note_store w !! id with
       | None => ret None
       | Some n =>
           let n' := apply_update c imp n in
           modify (with_notes (<[id := n']> (note_store w))) ;;
           ret (Some (id, n'))
       end
  else throw CastError.

(** [jwt.verify(token, process.env.SECRET)]: throws on a missing token and
    on one that does not verify. *)
Definition verify (token : option string) : M Payload :=
  record (Call_jwt_verify token) ;;
  match token with
  | None => throw JsonWebTokenError
  | Some t =>
      match jwt_verify env t with
      | Some p => ret p
      | None => throw JsonWebTokenError
      end
  end.

(** [jwt.sign(payload, process.env.SECRET)]. *)
Definition sign (p : Payload) : M string :=
  record (Call_jwt_sign p) ;; ret (jwt_sign env p).

(** [bcrypt.compare(password, hash)]. *)
Definition compare (password hash : string) : M bool :=
  record (Call_bcrypt_compare password hash) ;;
  ret (bcrypt_compare env password hash).

End Mongoose.

(** ** controllers/notes.js *)

Definition getTokenFrom {B} (request : Request B) : option string :=
  match authorization request with
  | Some a =>
      if Js.truthy_string a && Js.startsWith a "Bearer"
      then Some (Js.replace a "Bearer " "")
      else None
  | None => None
  end.

Module notesRouter.
Section Handlers.
Context (env : Env).

(** [notesRouter.get("/")]. *)
Definition get_all : M unit :=
  try_catch
    (ns <- Note_find_populate ;;
     Express.json (JNotes ns))
    Express.next.

(** [notesRouter.get("/:id")]. *)
Definition get {B} (request : Request B) : M unit :=
  try_catch
    (note <- Note_findById env (params_id request) ;;
     match note with
     | Some d => Express.json (JNote (fst d) (snd d))
     | None => Express.status 404 ;; Express.end_
     end)
    Express.next.

(** The statements of the create handler after the token check: resolve
    the user, build and save the note, link it to the user, respond. *)
Definition create_for (id : option string) (b : NoteBody) : M unit :=
  user <- User_findById env id ;;
  u <- deref user ;;
  savedNote <- Note_save (body_content b) (Js.or_false (body_important b)) (fst u) ;;
  User_save (fst u, mkUser (username (snd u)) (name (snd u))
                           (passwordHash (snd u))
                           (notes (snd u) ++ [fst savedNote])) ;;
  Express.status 201 ;;
  Express.json (JNote (fst savedNote) (snd savedNote)).

(** [notesRouter.post("/")]. *)
Definition post (request : Request NoteBody) : M unit :=
  try_catch
    (decodedToken <- verify env (getTokenFrom request) ;;
     when (negb (Js.truthy (payload_id decodedToken)))
          (Express.status 401 ;; Express.json (JError "invalid token")) ;;
     create_for (payload_id decodedToken) (body request))
    Express.next.

(** [notesRouter.delete("/:id")]. *)
Definition delete {B} (request : Request B) : M unit :=
  try_catch
    (Note_findByIdAndRemove env (params_id request) ;;
     Express.status 204 ;;
     Express.end_)
    Express.next.

(** [notesRouter.put("/:id")]. *)
Definition put (request : Request NoteBody) : M unit :=
  try_catch
    (updatedNote <- Note_findByIdAndUpdate env (params_id request)
                      (body_content (body request))
                      (body_important (body request)) ;;
     Express.json (match updatedNote with
                   | Some d => JNote (fst d) (snd d)
                   | None => JNull
                   end))
    Express.next.

End Handlers.
End notesRouter.

(** ** controllers/login.js *)
Module loginRouter.
Section Handlers.
Context (env : Env).

(** [loginRouter.post("/")]. *)
Definition post (request : Request LoginBody) : M unit :=
  let uname := body_username (body request) in
  let password := body_password (body request) in
  try_catch
    (user <- User_findOne uname ;;
     passwordCorrect <-
       match user with
       | None => ret false
       | Some d => compare env password (passwordHash (snd d))
       end ;;
     when (negb (bool_decide (is_Some user) && passwordCorrect))
          (Express.status 401 ;;
           Express.json (JErrorMessage "username or password is invalid")) ;;
     u <- deref user ;;
     let userForToken :=
       mkPayload (Some (username (snd u))) (Some (fst u)) in
     token <- sign env userForToken ;;
     Express.status 200 ;;
     Express.send (JLogin token (username (snd u)) (name (snd u))))
    (fun error => Express.next error ;; Express.status 400).

End Handlers.
End loginRouter.

(** ** The application around the controllers *)

(** Modelled from the spec: the error-handling middleware the controllers
    forward to with [next(error)], which is not among the sources. The spec
    translates a validation error and an identifier in the wrong format to
    400, a bad or missing token to 401, and every other fault to 500, always
    with a JSON error body. *)
Definition status_of_error (e : Error) : nat :=
  match e with
  | ValidationError => 400
  | CastError => 400
  | JsonWebTokenError => 401
  | TypeError => 500
  | HeadersSentError => 500
  end.

Definition error_name (e : Error) : string :=
  match e with
  | ValidationError => "ValidationError"
  | CastError => "CastError"
  | JsonWebTokenError => "JsonWebTokenError"
  | TypeError => "TypeError"
  | HeadersSentError => "ERR_HTTP_HEADERS_SENT"
  end.

Definition errorHandler (e : Error) : M unit :=
  Express.status (status_of_error e) ;;
  Express.json (JError (error_name e)).

(** One request: the handler runs on a fresh response, and an error it
    forwarded goes through the error handler. Express runs the error
    handler inside [next(error)]; the only statement a controller has after
    that call sets a status code and sends nothing, so the client receives
    the same response in either order. *)
Definition serve (handler : M unit) (ns : gmap string Note) (us : gmap string User)
  : World :=
  let w := exec handler (initial ns us) in
  match forwarded w with
  | Some e => exec (errorHandler e) w
  | None => w
  end.

(** What the client received: status and body. *)
Definition client_sees (w : World) : option (nat * option Json) :=
  sent (response w).

(** The status the client received, if any. *)
Definition client_status (w : World) : option nat := fst <$> client_sees w.

(** The contents in a list response. *)
Definition contents_of (r : option (nat * option Json)) : list string :=
  match r with
  | Some (_, Some (JNotes l)) => pop_content <$> l
  | _ => []
  end.

(** ** Worlds a handler passes through *)

(** The world after [status(n).json(b)] on a response that is still open. *)
Definition responded (n : nat) (b : option Json) (w : World) : World :=
  with_response (mkResponse n (Some (n, b))) w.

(** The world after a note was saved for [uid] and linked to it. *)
Definition created (uid : string) (u : User) (c : string) (imp : bool)
    (w : World) : World :=
  let id := fresh (dom (note_store w)) in
  mkWorld (<[id := mkNote c imp (Some uid)]> (note_store w))
          (<[uid := mkUser (username u) (name u) (passwordHash u)
                           (notes u ++ [id])]> (user_store w))
          (response w)
          (calls w ++ [Call_User_findById (Some uid)] ++ [Call_Note_save]
             ++ [Call_User_save uid])
          (forwarded w).

(** The two ways the statements after the token check can leave the stores:
    as they were, or with a note saved for a stored user and linked to it. *)
Inductive create_outcome (env : Env) (b : NoteBody) (w w' : World) : Prop :=
| create_nothing :
    note_store w' = note_store w ->
    user_store w' = user_store w ->
    create_outcome env b w w'
| create_saved (uid : string) (u : User) (c : string) :
    valid_id env uid = true ->
    user_store w !! uid = Some u ->
    body_content b = Some c ->
    c <> "" ->
    note_store w' = note_store (created uid u c (Js.or_false (body_important b)) w) ->
    user_store w' = user_store (created uid u c (Js.or_false (body_important b)) w) ->
    create_outcome env b w w'.

(** ** The invariant of the note store *)

(** Every stored note has non-empty content and an owner that is a stored
    user. *)
Definition owner_ok (us : gmap string User) (n : Note) : Prop :=
  ∃ uid u, user n = Some uid ∧ us !! uid = Some u.

Definition note_ok (us : gmap string User) (n : Note) : Prop :=
  content n ≠ "" ∧ owner_ok us n.

Definition notes_ok (ns : gmap string Note) (us : gmap string User) : Prop :=
  ∀ id n, ns !! id = Some n → note_ok us n.

Definition world_ok (w : World) : Prop := notes_ok (note_store w) (user_store w).

(** The owner half of the invariant alone. *)
Definition owners_ok (w : World) : Prop :=
  ∀ id n, note_store w !! id = Some n → owner_ok (user_store w) n.

(** ** A concrete environment, for running the handlers on examples *)
Module Sample.

Definition is_hex (c : ascii) : bool :=
  let n := nat_of_ascii c in
  ((48 <=? n)%nat && (n <=? 57)%nat) || ((97 <=? n)%nat && (n <=? 102)%nat)
  || ((65 <=? n)%nat && (n <=? 70)%nat).

(** The ObjectId format: 24 hexadecimal digits. *)
Definition hex24 (s : string) : bool :=
  (String.length s =? 24)%nat && forallb is_hex (list_ascii_of_string s).

(** Tokens [id=<x>] verify and carry the id [x]; the token [anonymous]
    verifies and carries no id; nothing else verifies. *)
Definition verify (t : string) : option Payload :=
  if String.prefix "id=" t
  then Some (mkPayload (Some "root") (Some (Js.slice_from 3 t)))
  else if String.eqb t "anonymous"
       then Some (mkPayload (Some "root") None)
       else None.

Definition sign (p : Payload) : string :=
  "id=" ++ default "" (payload_id p).

Definition bcrypt (password hash : string) : bool :=
  String.eqb ("hashed:" ++ password) hash.

Definition env : Env := mkEnv hex24 verify sign bcrypt.

Definition root_id : string := "64b7f0a1c2d3e4f5a6b7c8d9".
Definition other_id : string := "64b7f0a1c2d3e4f5a6b7c8da".
Definition note_id : string := "5a3d5da59070081a82a3445a".
Definition note_id2 : string := "5a3d5da59070081a82a3445b".
(** The malformed id of the test suite: 23 digits. *)
Definition invalid_id : string := "5a3d5da59070081a82a3445".

Definition root : User := mkUser "root" None "hashed:secret" [].

Definition users : gmap string User := {[ root_id := root ]}.

Definition html : Note := mkNote "HTML is easy" false (Some root_id).

Definition one_note : gmap string Note := {[ note_id := html ]}.

(** Two notes of the same owner with the same content. *)
Definition twins : gmap string Note :=
  <[ note_id2 := html ]> one_note.

(** A user whose notes list holds the id of the stored note. *)
Definition author : User := mkUser "root" None "hashed:secret" [note_id].

Definition authors : gmap string User := {[ root_id := author ]}.

Definition bearer (t : string) : option string := Some ("Bearer " ++ t).

Definition note_request (auth : option string) (id : string)
    (c : option string) (imp : option bool) : Request NoteBody :=
  mkRequest auth id (mkNoteBody c imp).

Definition login_request (u p : string) : Request LoginBody :=
  mkRequest None "" (mkLoginBody u p).

End Sample.

(** * Properties *)

(** ** Strings: what [replace] does *)
Module JsFacts.

Lemma substring_0_all (s : string) : String.substring 0 (String.length s) s = s.
Proof. induction s as [|c s IH]; simpl; [reflexivity | now rewrite IH]. Qed.

Lemma substring_0_app (a b : string) :
  String.substring 0 (String.length a) (a ++ b) = a.
Proof. induction a as [|c a IH]; simpl; [now destruct b | now rewrite IH]. Qed.

Lemma substring_skip_app (a b : string) (n m : nat) :
  String.substring (String.length a + n) m (a ++ b) = String.substring n m b.
Proof. induction a as [|c a IH]; simpl; [reflexivity | exact IH]. Qed.

Lemma substring_0_app_le (a b : string) (m : nat) :
  m <= String.length a ->
  String.substring 0 m (a ++ b) = String.substring 0 m a.
Proof.
  revert m; induction a as [|c a IH]; intros [|m] Hm; simpl in *;
    try reflexivity; try lia.
  - now destruct b.
  - now rewrite IH by lia.
Qed.

Lemma length_app (a b : string) :
  String.length (a ++ b) = String.length a + String.length b.
Proof. induction a as [|c a IH]; simpl; [reflexivity | now rewrite IH]. Qed.

Lemma length_substring (s : string) (n m : nat) :
  String.length (String.substring n m s) = Nat.min m (String.length s - n).
Proof.
  revert n m; induction s as [|c s IH]; intros [|n] [|m]; simpl;
    try reflexivity; rewrite IH; simpl; lia.
Qed.

Lemma app_empty (s : string) : "" ++ s = s.
Proof. reflexivity. Qed.

Lemma app_String (c : ascii) (a b : string) :
  String c a ++ b = String c (a ++ b).
Proof. reflexivity. Qed.

Lemma split_front (m : nat) (s : string) :
  m <= String.length s ->
  s = String.substring 0 m s ++ Js.slice_from m s.
Proof.
  unfold Js.slice_from.
  revert s; induction m as [|m IH]; intros [|c s] Hle; simpl in Hle;
    try reflexivity; try lia.
  - simpl. now rewrite app_empty, substring_0_all.
  - simpl. rewrite app_String. f_equal. apply IH. lia.
Qed.

(** A string splits around any of its substrings. *)
Lemma split_at (s : string) (n m : nat) :
  n + m <= String.length s ->
  s = String.substring 0 n s ++ String.substring n m s
        ++ Js.slice_from (n + m) s.
Proof.
  revert s; induction n as [|n IH]; intros s Hle.
  - replace (String.substring 0 0 s) with "" by now destruct s.
    rewrite app_empty. now apply split_front.
  - destruct s as [|c s]; simpl in Hle; [lia|].
    unfold Js.slice_from in *. simpl. rewrite app_String. f_equal.
    apply IH. lia.
Qed.

(** Where [index] finds the pattern, the string splits around it. *)
Lemma index_split (pat s : string) (i : nat) :
  pat <> "" ->
  String.index 0 pat s = Some i ->
  s = String.substring 0 i s ++ pat ++ Js.slice_from (i + String.length pat) s
  /\ i + String.length pat <= String.length s.
Proof.
  intros Hne Hi.
  pose proof (index_correct1 _ _ _ _ Hi) as Hsub.
  assert (Hlen : i + String.length pat <= String.length s).
  { pose proof (length_substring s i (String.length pat)) as HL.
    rewrite Hsub in HL.
    destruct pat as [|c pat]; [congruence | ].
    change (String.length (String c pat)) with (S (String.length pat)) in *.
    lia. }
  split; [ | exact Hlen].
  pose proof (split_at s i (String.length pat) Hlen) as Hs.
  now rewrite Hsub in Hs.
Qed.

(** An occurrence of the pattern at the end of [pre]. *)
Lemma occurrence_at (pre pat post : string) :
  String.substring (String.length pre) (String.length pat) (pre ++ pat ++ post) = pat.
Proof.
  rewrite <- (Nat.add_0_r (String.length pre)), substring_skip_app.
  apply substring_0_app.
Qed.

Lemma app_inv_length (a a' b b' : string) :
  a ++ b = a' ++ b' -> String.length a = String.length a' -> a = a' /\ b = b'.
Proof.
  revert a'; induction a as [|c a IH]; intros [|c' a'] H Hl; simpl in *;
    try discriminate; [now split | ].
  injection H as -> H. destruct (IH a' H ltac:(lia)) as [-> ->]. now split.
Qed.

(** [replace] removes the first occurrence of the pattern and keeps the
    rest of the string, later occurrences included. *)
Lemma replace_first (s pat pre post : string) :
  pat <> "" ->
  s = pre ++ pat ++ post ->
  (forall pre' post', s = pre' ++ pat ++ post' ->
                      String.length pre <= String.length pre') ->
  Js.replace s pat "" = pre ++ post.
Proof.
  intros Hne Hs Hmin. unfold Js.replace.
  destruct (String.index 0 pat s) as [i|] eqn:Hi.
  - destruct (index_split pat s i Hne Hi) as [Hsplit Hlen].
    assert (Hi_le : String.length pre <= i).
    { specialize (Hmin _ _ Hsplit). rewrite length_substring in Hmin. lia. }
    assert (Hi_ge : i <= String.length pre).
    { destruct (le_lt_dec i (String.length pre)) as [|Hlt]; [assumption|].
      exfalso. apply (index_correct2 _ _ _ _ Hi (String.length pre)); [lia|lia|].
      rewrite Hs. apply occurrence_at. }
    assert (i = String.length pre) by lia. subst i.
    rewrite Hs in Hsplit at 1.
    apply app_inv_length in Hsplit as [Hpre Hrest].
    2:{ rewrite length_substring. lia. }
    apply app_inv_length in Hrest as [_ Hpost]; [ | reflexivity].
    simpl. now rewrite <- Hpre, <- Hpost.
  - exfalso. apply (index_correct3 _ (String.length pre) _ _ Hi Hne); [lia|].
    rewrite Hs. apply occurrence_at.
Qed.

(** Without an occurrence, [replace] returns the string. *)
Lemma replace_absent (s pat : string) :
  pat <> "" ->
  (forall pre post, s <> pre ++ pat ++ post) ->
  Js.replace s pat "" = s.
Proof.
  intros Hne Habs. unfold Js.replace.
  destruct (String.index 0 pat s) as [i|] eqn:Hi; [ | reflexivity].
  destruct (index_split pat s i Hne Hi) as [Hsplit _].
  exfalso. exact (Habs _ _ Hsplit).
Qed.

Lemma startsWith_app (s p : string) :
  Js.startsWith s p = true <-> exists rest, s = p ++ rest.
Proof.
  unfold Js.startsWith. rewrite prefix_correct. split.
  - intros H. exists (Js.slice_from (String.length p) s).
    assert (Hl : String.length p <= String.length s).
    { pose proof (length_substring s 0 (String.length p)) as HL.
      rewrite H in HL. lia. }
    pose proof (split_at s 0 (String.length p) ltac:(lia)) as Hs.
    simpl in Hs. rewrite H in Hs.
    destruct s; simpl in *; exact Hs.
  - intros [rest ->]. apply substring_0_app.
Qed.

End JsFacts.

(** ** Running the primitives *)

Ltac unfold_monad :=
  unfold try_catch, bind, ret, throw, when, deref, record, modify, get_world in *.

Ltac unfold_express :=
  unfold Express.json, Express.send, Express.end_, Express.status,
    Express.next, Express.write in *.

Ltac unfold_world :=
  unfold with_call, with_response, with_notes, with_users, with_forwarded in *.

Ltac unfold_models :=
  unfold verify, sign, compare, User_findById, User_findOne, User_save,
    Note_findById, Note_find_populate, Note_save, Note_findByIdAndRemove,
    Note_findByIdAndUpdate in *.

Ltac run := unfold_models; unfold_express; unfold_monad; unfold_world; simpl.

Lemma status_json_open (n : nat) (b : Json) (w : World) :
  sent (response w) = None ->
  (Express.status n ;; Express.json b) w = (Ret tt, responded n (Some b) w).
Proof. intros H. unfold responded. run. now rewrite H. Qed.

Lemma status_json_sent (n : nat) (b : Json) (w : World) (r : nat * option Json) :
  sent (response w) = Some r ->
  (Express.status n ;; Express.json b) w
  = (Throw HeadersSentError, with_response (mkResponse n (Some r)) w).
Proof. intros H. run. now rewrite H. Qed.

(** The error handler cannot change what the client already received. *)
Lemma errorHandler_after_sent (e : Error) (w : World) (r : nat * option Json) :
  client_sees w = Some r ->
  client_sees (exec (errorHandler e) w) = Some r
  /\ note_store (exec (errorHandler e) w) = note_store w
  /\ user_store (exec (errorHandler e) w) = user_store w
  /\ calls (exec (errorHandler e) w) = calls w.
Proof.
  unfold client_sees, exec, errorHandler. intros H.
  rewrite (status_json_sent _ _ _ _ H). simpl. auto.
Qed.

Lemma errorHandler_open (e : Error) (w : World) :
  client_sees w = None ->
  client_sees (exec (errorHandler e) w)
  = Some (status_of_error e, Some (JError (error_name e)))
  /\ note_store (exec (errorHandler e) w) = note_store w
  /\ user_store (exec (errorHandler e) w) = user_store w
  /\ calls (exec (errorHandler e) w) = calls w.
Proof.
  unfold client_sees, exec, errorHandler. intros H.
  rewrite (status_json_open _ _ _ H). simpl. auto.
Qed.

(** The error handler never touches the stores or the call log. *)
Lemma errorHandler_stores (e : Error) (w : World) :
  note_store (exec (errorHandler e) w) = note_store w
  /\ user_store (exec (errorHandler e) w) = user_store w
  /\ calls (exec (errorHandler e) w) = calls w.
Proof.
  destruct (client_sees w) as [r|] eqn:H.
  - now destruct (errorHandler_after_sent e w r H) as (_ & ? & ? & ?).
  - now destruct (errorHandler_open e w H) as (_ & ? & ? & ?).
Qed.

(** What [serve] adds to the run of the handler. *)
Lemma serve_stores (h : M unit) (ns : gmap string Note) (us : gmap string User) :
  note_store (serve h ns us) = note_store (exec h (initial ns us))
  /\ user_store (serve h ns us) = user_store (exec h (initial ns us))
  /\ calls (serve h ns us) = calls (exec h (initial ns us)).
Proof.
  unfold serve. destruct (forwarded (exec h (initial ns us))); [ | auto].
  apply errorHandler_stores.
Qed.

Lemma serve_sent (h : M unit) (ns : gmap string Note) (us : gmap string User)
    (r : nat * option Json) :
  client_sees (exec h (initial ns us)) = Some r ->
  client_sees (serve h ns us) = Some r.
Proof.
  intros H. unfold serve. destruct (forwarded (exec h (initial ns us))); [ | exact H].
  now apply errorHandler_after_sent.
Qed.

Lemma serve_forwarded (h : M unit) (ns : gmap string Note) (us : gmap string User)
    (e : Error) :
  client_sees (exec h (initial ns us)) = None ->
  forwarded (exec h (initial ns us)) = Some e ->
  client_sees (serve h ns us) = Some (status_of_error e, Some (JError (error_name e))).
Proof.
  intros Hopen He. unfold serve. rewrite He. now apply errorHandler_open.
Qed.

(** ** The create handler, statement by statement *)
Section CreateSteps.
Context (env : Env).

Lemma create_for_undefined (b : NoteBody) (w : World) :
  notesRouter.create_for env None b w
  = (Throw TypeError, with_call (Call_User_findById None) w).
Proof. reflexivity. Qed.

Lemma create_for_malformed (uid : string) (b : NoteBody) (w : World) :
  valid_id env uid = false ->
  notesRouter.create_for env (Some uid) b w
  = (Throw CastError, with_call (Call_User_findById (Some uid)) w).
Proof. intros H. unfold notesRouter.create_for. run. now rewrite H. Qed.

Lemma create_for_unknown (uid : string) (b : NoteBody) (w : World) :
  valid_id env uid = true ->
  user_store w !! uid = None ->
  notesRouter.create_for env (Some uid) b w
  = (Throw TypeError, with_call (Call_User_findById (Some uid)) w).
Proof.
  intros Hv Hn. unfold notesRouter.create_for. run. rewrite Hv. simpl.
  now rewrite Hn.
Qed.

Lemma create_for_rejected (uid : string) (u : User) (b : NoteBody) (w : World) :
  valid_id env uid = true ->
  user_store w !! uid = Some u ->
  Note_schema_accepts (body_content b) = false ->
  notesRouter.create_for env (Some uid) b w
  = (Throw ValidationError,
     with_call Call_Note_save (with_call (Call_User_findById (Some uid)) w)).
Proof.
  intros Hv Hu Hc. unfold notesRouter.create_for. run. rewrite Hv. simpl.
  rewrite Hu. simpl. destruct (body_content b) as [c|]; [ | reflexivity].
  now rewrite Hc.
Qed.

Lemma create_for_saved (uid : string) (u : User) (b : NoteBody) (c : string)
    (w : World) :
  valid_id env uid = true ->
  user_store w !! uid = Some u ->
  body_content b = Some c ->
  c <> "" ->
  let w' := created uid u c (Js.or_false (body_important b)) w in
  let saved := JNote (fresh (dom (note_store w)))
                     (mkNote c (Js.or_false (body_important b)) (Some uid)) in
  notesRouter.create_for env (Some uid) b w
  = (Express.status 201 ;; Express.json saved) w'.
Proof.
  intros Hv Hu Hc Hne. unfold notesRouter.create_for, created. run.
  rewrite Hv. simpl. rewrite Hu. simpl. rewrite Hc.
  unfold Note_schema_accepts. simpl.
  destruct c as [|a c]; [congruence | simpl].
  rewrite <- !app_assoc. reflexivity.
Qed.

(** The create handler once the token is known. *)
Lemma post_no_token (request : Request NoteBody) (w : World) :
  getTokenFrom request = None ->
  notesRouter.post env request w
  = (Ret tt, with_forwarded JsonWebTokenError (with_call (Call_jwt_verify None) w)).
Proof. intros H. unfold notesRouter.post. rewrite H. reflexivity. Qed.

Lemma post_bad_token (request : Request NoteBody) (token : string) (w : World) :
  getTokenFrom request = Some token ->
  jwt_verify env token = None ->
  notesRouter.post env request w
  = (Ret tt, with_forwarded JsonWebTokenError
               (with_call (Call_jwt_verify (Some token)) w)).
Proof.
  intros H Hv. unfold notesRouter.post. rewrite H. run. now rewrite Hv.
Qed.

Lemma post_with_id (request : Request NoteBody) (token : string) (p : Payload)
    (w : World) :
  getTokenFrom request = Some token ->
  jwt_verify env token = Some p ->
  Js.truthy (payload_id p) = true ->
  notesRouter.post env request w
  = try_catch (notesRouter.create_for env (payload_id p) (body request))
      Express.next (with_call (Call_jwt_verify (Some token)) w).
Proof.
  intros H Hv Ht. unfold notesRouter.post. rewrite H.
  unfold verify. unfold_monad. simpl. rewrite Hv, Ht. simpl.
  reflexivity.
Qed.

Lemma post_without_id (request : Request NoteBody) (token : string) (p : Payload)
    (w : World) :
  getTokenFrom request = Some token ->
  jwt_verify env token = Some p ->
  Js.truthy (payload_id p) = false ->
  sent (response w) = None ->
  notesRouter.post env request w
  = try_catch (notesRouter.create_for env (payload_id p) (body request))
      Express.next
      (responded 401 (Some (JError "invalid token"))
         (with_call (Call_jwt_verify (Some token)) w)).
Proof.
  intros H Hv Ht Hs. unfold notesRouter.post. rewrite H.
  unfold verify, responded. unfold_express. unfold_monad. simpl.
  rewrite Hv, Ht. simpl. rewrite Hs. reflexivity.
Qed.

End CreateSteps.

(** ** Creating notes *)
Section Create.
Implicit Types (env : Env) (ns : gmap string Note) (us : gmap string User).
Implicit Types (request : Request NoteBody).

Lemma getTokenFrom_bearer request (a : string) :
  authorization request = Some a ->
  Js.startsWith a "Bearer" = true ->
  getTokenFrom request = Some (Js.replace a "Bearer " "").
Proof.
  intros Ha Hs. unfold getTokenFrom. rewrite Ha, Hs.
  apply JsFacts.startsWith_app in Hs as [rest ->]. reflexivity.
Qed.

Lemma getTokenFrom_other request :
  (authorization request = None
   \/ exists a, authorization request = Some a /\ Js.startsWith a "Bearer" = false) ->
  getTokenFrom request = None.
Proof.
  unfold getTokenFrom. intros [-> | (a & -> & ->)]; [reflexivity | ].
  now rewrite andb_false_r.
Qed.

(** C1: when the token verifies and its payload has no user id, the create
    handler sends 401 with "invalid token" and goes on: the handler is the
    rest of its statements (user lookup, note creation) run after that
    response. The lookup is made with the missing id and finds nothing, so
    building the note stops at reading the id of the null user; that error
    is forwarded, the client keeps the 401 and nothing is stored. *)
Theorem post_without_id_flags_and_continues env request ns us
    (token : string) (p : Payload) :
  getTokenFrom request = Some token ->
  jwt_verify env token = Some p ->
  payload_id p = None ->
  let flagged :=
    responded 401 (Some (JError "invalid token"))
      (with_call (Call_jwt_verify (Some token)) (initial ns us)) in
  let w := exec (notesRouter.post env request) (initial ns us) in
  client_sees flagged = Some (401, Some (JError "invalid token"))
  /\ notesRouter.post env request (initial ns us)
     = try_catch (notesRouter.create_for env None (body request))
         Express.next flagged
  /\ calls w = [Call_jwt_verify (Some token); Call_User_findById None]
  /\ forwarded w = Some TypeError
  /\ client_sees w = Some (401, Some (JError "invalid token"))
  /\ note_store w = ns /\ user_store w = us.
Proof.
  intros Htok Hver Hid flagged w.
  assert (Hpost : notesRouter.post env request (initial ns us)
                  = try_catch (notesRouter.create_for env None (body request))
                      Express.next flagged).
  { rewrite (post_without_id env request token p); rewrite ?Hid; auto. }
  split; [reflexivity | split; [exact Hpost | ]].
  subst w. unfold exec. rewrite Hpost.
  unfold try_catch. rewrite create_for_undefined. simpl. auto 10.
Qed.

Lemma post_without_id_flags_and_continues_witness :
  let request := Sample.note_request (Sample.bearer "anonymous") ""
                   (Some "x") None in
  let w := exec (notesRouter.post Sample.env request)
             (initial Sample.one_note Sample.users) in
  calls w = [Call_jwt_verify (Some "anonymous"); Call_User_findById None]
  /\ forwarded w = Some TypeError
  /\ client_sees w = Some (401, Some (JError "invalid token")).
Proof.
  intros request w.
  destruct (post_without_id_flags_and_continues Sample.env request
              Sample.one_note Sample.users "anonymous"
              (mkPayload (Some "root") None)
              eq_refl eq_refl eq_refl) as (_ & _ & Hc & Hf & Hs & _).
  exact (conj Hc (conj Hf Hs)).
Defined.

(** C9, as stated, at a token that verifies and carries the id "abc", which
    no stored user has and which is not in the stores' identifier format:
    the lookup does not return null, it throws a cast error, and that cast
    error, not one raised by reading the null user, is what the handler
    forwards. *)
Lemma post_malformed_token_id_counterexample :
  let request := Sample.note_request (Sample.bearer "id=abc") ""
                   (Some "x") None in
  let w := exec (notesRouter.post Sample.env request)
             (initial Sample.one_note Sample.users) in
  (exists p, getTokenFrom request = Some "id=abc"
             /\ jwt_verify Sample.env "id=abc" = Some p
             /\ payload_id p = Some "abc")
  /\ Sample.users !! "abc" = None
  /\ fst (User_findById Sample.env (Some "abc")
            (initial Sample.one_note Sample.users)) = Throw CastError
  /\ fst (User_findById Sample.env (Some "abc")
            (initial Sample.one_note Sample.users)) <> Ret None
  /\ forwarded w = Some CastError
  /\ forwarded w <> Some TypeError.
Proof.
  intros request w. split.
  - eexists. repeat split; reflexivity.
  - split; [reflexivity | ].
    split; [reflexivity | ].
    split; [discriminate | ].
    split; [reflexivity | discriminate].
Qed.

(** C9, amended: when the token verifies and carries an id that no stored
    user has, the handler forwards an error, no note is persisted, neither
    store changes, and the client never receives 201. When the id is in the
    stores' identifier format, the lookup returns null and the forwarded
    error is the TypeError raised by reading the id of the null user; when
    it is not, the lookup itself throws and the forwarded error is that
    cast error. *)
Theorem post_unknown_user_fails env request ns us
    (token uid : string) (p : Payload) :
  getTokenFrom request = Some token ->
  jwt_verify env token = Some p ->
  payload_id p = Some uid ->
  us !! uid = None ->
  let w := exec (notesRouter.post env request) (initial ns us) in
  (exists e, forwarded w = Some e)
  /\ note_store w = ns /\ user_store w = us
  /\ client_status w <> Some 201
  /\ client_status (serve (notesRouter.post env request) ns us) <> Some 201
  /\ (Call_Note_save ∉ calls w)
  /\ (valid_id env uid = true ->
      fst (User_findById env (Some uid) (initial ns us)) = Ret None
      /\ calls w = [Call_jwt_verify (Some token); Call_User_findById (Some uid)]
      /\ forwarded w = Some TypeError)
  /\ (valid_id env uid = false ->
      fst (User_findById env (Some uid) (initial ns us)) = Throw CastError
      /\ calls w = [Call_jwt_verify (Some token); Call_User_findById (Some uid)]
      /\ forwarded w = Some CastError).
Proof.
  intros Htok Hver Hid Hnone w.
  set (e := if valid_id env uid then TypeError else CastError).
  assert (Hlookup : forall w0, user_store w0 = us ->
            notesRouter.create_for env (Some uid) (body request) w0
            = (Throw e, with_call (Call_User_findById (Some uid)) w0)).
  { intros w0 Hw0. subst e. destruct (valid_id env uid) eqn:Hv.
    - apply create_for_unknown; [exact Hv | now rewrite Hw0].
    - now apply create_for_malformed. }
  assert (Hw : calls w = [Call_jwt_verify (Some token); Call_User_findById (Some uid)]
               /\ forwarded w = Some e
               /\ note_store w = ns /\ user_store w = us
               /\ (client_sees w = None
                   \/ client_sees w = Some (401, Some (JError "invalid token")))).
  { subst w. unfold exec.
    destruct (Js.truthy (payload_id p)) eqn:Ht.
    - rewrite (post_with_id env request token p _ Htok Hver Ht), Hid.
      unfold try_catch. rewrite Hlookup by reflexivity.
      simpl. auto 10.
    - rewrite (post_without_id env request token p (initial ns us) Htok Hver Ht eq_refl), Hid.
      unfold try_catch. rewrite Hlookup by reflexivity.
      simpl. auto 10. }
  destruct Hw as (Hc & Hf & Hn & Hu & Hs).
  split; [now exists e | ].
  split; [exact Hn | split; [exact Hu | ]].
  split; [ | split; [ | split; [ | split]]].
  - unfold client_status. destruct Hs as [-> | ->]; simpl; congruence.
  - unfold client_status. destruct Hs as [Hs | Hs].
    + rewrite (serve_forwarded _ _ _ _ Hs Hf). subst e.
      destruct (valid_id env uid); simpl; congruence.
    + rewrite (serve_sent _ _ _ _ Hs). simpl. congruence.
  - rewrite Hc. intros Hin.
    apply elem_of_cons in Hin as [Hin | Hin]; [discriminate | ].
    apply list_elem_of_singleton in Hin. discriminate.
  - intros Hvalid. subst e. rewrite Hvalid in Hf.
    split; [ | split; assumption].
    unfold User_findById. run. rewrite Hvalid. simpl. now rewrite Hnone.
  - intros Hvalid. subst e. rewrite Hvalid in Hf.
    split; [ | split; assumption].
    unfold User_findById. run. now rewrite Hvalid.
Qed.

Lemma post_unknown_user_fails_witness :
  let request := Sample.note_request
                   (Sample.bearer ("id=" ++ Sample.other_id)) ""
                   (Some "x") (Some true) in
  let w := exec (notesRouter.post Sample.env request)
             (initial Sample.one_note Sample.users) in
  forwarded w = Some TypeError /\ note_store w = Sample.one_note.
Proof.
  intros request w.
  destruct (post_unknown_user_fails Sample.env request
              Sample.one_note Sample.users
              ("id=" ++ Sample.other_id) Sample.other_id
              (mkPayload (Some "root") (Some Sample.other_id))
              eq_refl eq_refl eq_refl eq_refl)
    as (_ & Hn & _ & _ & _ & _ & H & _).
  destruct (H eq_refl) as (_ & _ & Hf).
  exact (conj Hf Hn).
Defined.

(** C10: a request whose authorization header is missing, or does not start
    with the exact characters of "Bearer", has no token: verification is
    called with null and fails, the error is forwarded, nothing is sent by
    the handler and neither store changes. A header that starts with
    "Bearer" gives the header with its first occurrence of "Bearer "
    removed: everything before and after that occurrence is kept, and a
    header without the occurrence is the token as it is. *)
Theorem post_token_extraction env request ns us :
  let w := exec (notesRouter.post env request) (initial ns us) in
  ((authorization request = None
    \/ exists a, authorization request = Some a /\ Js.startsWith a "Bearer" = false) ->
   getTokenFrom request = None
   /\ calls w = [Call_jwt_verify None]
   /\ forwarded w = Some JsonWebTokenError
   /\ client_sees w = None
   /\ note_store w = ns /\ user_store w = us)
  /\ (forall a : string,
        authorization request = Some a ->
        Js.startsWith a "Bearer" = true ->
        getTokenFrom request = Some (Js.replace a "Bearer " "")
        /\ (forall pre post : string,
              a = pre ++ "Bearer " ++ post ->
              (forall pre' post' : string,
                  a = pre' ++ "Bearer " ++ post' ->
                  String.length pre <= String.length pre') ->
              getTokenFrom request = Some (pre ++ post))
        /\ ((forall pre post : string, a <> pre ++ "Bearer " ++ post) ->
            getTokenFrom request = Some a)).
Proof.
  intros w. split.
  - intros H. pose proof (getTokenFrom_other request H) as Hnone.
    split; [exact Hnone | ].
    subst w. unfold exec. rewrite (post_no_token env request _ Hnone).
    simpl. auto 10.
  - intros a Ha Hs. rewrite (getTokenFrom_bearer request a Ha Hs).
    split; [reflexivity | split].
    + intros pre post Hsplit Hmin. f_equal.
      now apply JsFacts.replace_first.
    + intros Habs. f_equal. now apply JsFacts.replace_absent.
Qed.

Lemma post_token_extraction_witness :
  let lower := Sample.note_request (Some "bearer abc") "" (Some "x") None in
  let twice := Sample.note_request (Some "Bearer Bearer abc") "" (Some "x") None in
  forwarded (exec (notesRouter.post Sample.env lower)
               (initial Sample.one_note Sample.users))
  = Some JsonWebTokenError
  /\ getTokenFrom twice = Some "Bearer abc".
Proof.
  intros lower twice. split.
  - destruct (post_token_extraction Sample.env lower Sample.one_note Sample.users)
      as [H _].
    destruct H as (_ & _ & Hf & _); [ | exact Hf].
    right. exists "bearer abc". split; reflexivity.
  - destruct (post_token_extraction Sample.env twice Sample.one_note Sample.users)
      as [_ H].
    destruct (H "Bearer Bearer abc" eq_refl eq_refl) as (Ht & _).
    exact Ht.
Defined.

End Create.

(** ** What a create request leaves in the stores *)
Section CreateStores.
Implicit Types (env : Env) (ns : gmap string Note) (us : gmap string User).
Implicit Types (request : Request NoteBody).

Lemma fresh_id_unused ns : ns !! fresh (dom ns) = None.
Proof. apply not_elem_of_dom, is_fresh. Qed.

(** Responding does not touch the stores or the call log. *)
Lemma status_json_stores (n : nat) (b : Json) (w : World) :
  let w' := snd ((Express.status n ;; Express.json b) w) in
  note_store w' = note_store w /\ user_store w' = user_store w
  /\ calls w' = calls w /\ forwarded w' = forwarded w.
Proof.
  destruct (sent (response w)) as [r|] eqn:H.
  - rewrite (status_json_sent _ _ _ _ H). simpl. auto.
  - rewrite (status_json_open _ _ _ H). simpl. auto.
Qed.

Lemma create_for_outcome env (id : option string) (b : NoteBody) (w : World) :
  create_outcome env b w (snd (notesRouter.create_for env id b w)).
Proof.
  destruct id as [uid|]; [ | now left].
  destruct (valid_id env uid) eqn:Hv.
  2:{ rewrite create_for_malformed by assumption. now left. }
  destruct (user_store w !! uid) as [u|] eqn:Hu.
  2:{ rewrite create_for_unknown by assumption. now left. }
  destruct (body_content b) as [c|] eqn:Hc.
  2:{ rewrite (create_for_rejected env uid u) by (rewrite ?Hc; auto). now left. }
  destruct (decide (c = "")) as [-> | Hne].
  { rewrite (create_for_rejected env uid u) by (rewrite ?Hc; auto). now left. }
  rewrite (create_for_saved env uid u b c) by assumption.
  destruct (status_json_stores 201
              (JNote (fresh (dom (note_store w)))
                 (mkNote c (Js.or_false (body_important b)) (Some uid)))
              (created uid u c (Js.or_false (body_important b)) w))
    as (Hn & Hus & _).
  now apply (create_saved env b w _ uid u c).
Qed.

(** Forwarding a caught error keeps the stores. *)
Lemma try_next_stores (m : M unit) (w : World) :
  note_store (snd (try_catch m Express.next w)) = note_store (snd (m w))
  /\ user_store (snd (try_catch m Express.next w)) = user_store (snd (m w)).
Proof. unfold try_catch. destruct (m w) as [[a|e] w']; simpl; auto. Qed.

Lemma post_outcome env request ns us :
  create_outcome env (body request) (initial ns us)
    (exec (notesRouter.post env request) (initial ns us)).
Proof.
  unfold exec.
  destruct (getTokenFrom request) as [token|] eqn:Htok.
  2:{ rewrite post_no_token by assumption. now left. }
  destruct (jwt_verify env token) as [p|] eqn:Hver.
  2:{ rewrite (post_bad_token env request token) by assumption. now left. }
  destruct (Js.truthy (payload_id p)) eqn:Ht.
  - rewrite (post_with_id env request token p) by assumption.
    destruct (try_next_stores
                (notesRouter.create_for env (payload_id p) (body request))
                (with_call (Call_jwt_verify (Some token)) (initial ns us)))
      as [Hn Hu].
    destruct (create_for_outcome env (payload_id p) (body request)
                (with_call (Call_jwt_verify (Some token)) (initial ns us)))
      as [Hn' Hu' | uid u c Hv Hl Hc Hne Hn' Hu'].
    + left; [rewrite Hn, Hn' | rewrite Hu, Hu']; reflexivity.
    + apply (create_saved env _ _ _ uid u c);
        [exact Hv | exact Hl | exact Hc | exact Hne
        | rewrite Hn, Hn'; reflexivity | rewrite Hu, Hu'; reflexivity].
  - rewrite (post_without_id env request token p (initial ns us))
      by (assumption || reflexivity).
    set (w0 := responded 401 (Some (JError "invalid token"))
                 (with_call (Call_jwt_verify (Some token)) (initial ns us))).
    destruct (try_next_stores
                (notesRouter.create_for env (payload_id p) (body request)) w0)
      as [Hn Hu].
    destruct (create_for_outcome env (payload_id p) (body request) w0)
      as [Hn' Hu' | uid u c Hv Hl Hc Hne Hn' Hu'].
    + left; [rewrite Hn, Hn' | rewrite Hu, Hu']; reflexivity.
    + apply (create_saved env _ _ _ uid u c);
        [exact Hv | exact Hl | exact Hc | exact Hne
        | rewrite Hn, Hn'; reflexivity | rewrite Hu, Hu'; reflexivity].
Qed.

End CreateStores.

(** ** The create handler: success and missing content *)
Section CreateClaims.
Implicit Types (env : Env) (ns : gmap string Note) (us : gmap string User).
Implicit Types (request : Request NoteBody).

(** C5, as stated, at a token that verifies and carries the well-formed id
    of a user who is not stored, with content "x": the handler sends
    nothing, forwards a TypeError and stores no note; the client does not
    receive 201. *)
Lemma post_valid_token_stale_user_counterexample :
  let request := Sample.note_request
                   (Sample.bearer ("id=" ++ Sample.other_id)) ""
                   (Some "x") (Some true) in
  let w := exec (notesRouter.post Sample.env request)
             (initial Sample.one_note Sample.users) in
  (exists p, getTokenFrom request = Some ("id=" ++ Sample.other_id)
             /\ jwt_verify Sample.env ("id=" ++ Sample.other_id) = Some p
             /\ payload_id p = Some Sample.other_id)
  /\ body_content (body request) = Some "x"
  /\ client_sees w = None
  /\ forwarded w = Some TypeError
  /\ note_store w = Sample.one_note
  /\ client_status (serve (notesRouter.post Sample.env request)
                      Sample.one_note Sample.users) <> Some 201.
Proof.
  intros request w. split.
  - eexists. repeat split; reflexivity.
  - repeat split; try (vm_compute; reflexivity).
    vm_compute. discriminate.
Qed.

(** C5, amended: when the token verifies and carries the id of a stored
    user, and the body has non-empty content, the handler looks that user
    up by the token's id, saves under an unused id a note with the content,
    with the importance of the body (false when the field is missing or
    false) and with the user as owner, appends the note's id to the user's
    notes and saves the user, and the client receives 201 with the note. *)
Theorem post_creates_note env request ns us
    (token uid c : string) (p : Payload) (u : User) :
  getTokenFrom request = Some token ->
  jwt_verify env token = Some p ->
  payload_id p = Some uid ->
  uid <> "" ->
  valid_id env uid = true ->
  us !! uid = Some u ->
  body_content (body request) = Some c ->
  c <> "" ->
  let w := serve (notesRouter.post env request) ns us in
  let id := fresh (dom ns) in
  let note := mkNote c (Js.or_false (body_important (body request))) (Some uid) in
  calls w = [Call_jwt_verify (Some token); Call_User_findById (Some uid);
             Call_Note_save; Call_User_save uid]
  /\ ns !! id = None
  /\ note_store w = <[id := note]> ns
  /\ (body_important (body request) = None
      \/ body_important (body request) = Some false -> important note = false)
  /\ user_store w
     = <[uid := mkUser (username u) (name u) (passwordHash u) (notes u ++ [id])]> us
  /\ client_sees w = Some (201, Some (JNote id note))
  /\ forwarded w = None.
Proof.
  intros Htok Hver Hid Hne Hvalid Hu Hc Hcne w id note.
  assert (Ht : Js.truthy (payload_id p) = true).
  { rewrite Hid. destruct uid; [congruence | reflexivity]. }
  assert (Hrun : exec (notesRouter.post env request) (initial ns us)
                 = responded 201 (Some (JNote id note))
                     (created uid u c (Js.or_false (body_important (body request)))
                        (with_call (Call_jwt_verify (Some token)) (initial ns us)))).
  { unfold exec. rewrite (post_with_id env request token p) by assumption.
    rewrite Hid. unfold try_catch.
    rewrite (create_for_saved env uid u (body request) c) by assumption.
    rewrite status_json_open by reflexivity. reflexivity. }
  assert (Hserve : w = exec (notesRouter.post env request) (initial ns us)).
  { subst w. unfold serve. rewrite Hrun. reflexivity. }
  rewrite Hserve, Hrun. simpl.
  split; [reflexivity | ].
  split; [apply fresh_id_unused | ].
  split; [reflexivity | ].
  split; [intros [-> | ->]; reflexivity | ].
  split; [reflexivity | split; reflexivity].
Qed.

Lemma post_creates_note_witness :
  let request := Sample.note_request
                   (Sample.bearer ("id=" ++ Sample.root_id)) ""
                   (Some "x") (Some true) in
  let w := serve (notesRouter.post Sample.env request)
             Sample.one_note Sample.users in
  let id := fresh (dom Sample.one_note) in
  client_sees w = Some (201, Some (JNote id (mkNote "x" true (Some Sample.root_id))))
  /\ user_store w
     = <[Sample.root_id := mkUser "root" None "hashed:secret" [id]]> Sample.users.
Proof.
  intros request w id.
  destruct (post_creates_note Sample.env request Sample.one_note Sample.users
              ("id=" ++ Sample.root_id) Sample.root_id "x"
              (mkPayload (Some "root") (Some Sample.root_id)) Sample.root
              eq_refl eq_refl eq_refl ltac:(discriminate) eq_refl eq_refl
              eq_refl ltac:(discriminate))
    as (_ & _ & _ & _ & Hu & Hs & _).
  exact (conj Hs Hu).
Defined.

(** C6, as stated, at a request without content whose token verifies but
    carries no id: the client receives the handler's own 401, not 400. *)
Lemma anonymous_token_without_content_counterexample :
  let request := Sample.note_request (Sample.bearer "anonymous") ""
                   None (Some false) in
  body_content (body request) = None
  /\ client_sees (serve (notesRouter.post Sample.env request)
                    Sample.one_note Sample.users)
     = Some (401, Some (JError "invalid token")).
Proof. split; vm_compute; reflexivity. Qed.

(** C6, amended: a create request without a content field never changes the
    note store or the user store; and when its token verifies and carries
    the id of a stored user, the save is rejected by validation, the
    handler forwards the validation error and the client receives 400. *)
Theorem post_without_content env request ns us :
  body_content (body request) = None ->
  let w := serve (notesRouter.post env request) ns us in
  note_store w = ns
  /\ user_store w = us
  /\ (forall (token uid : string) (p : Payload) (u : User),
        getTokenFrom request = Some token ->
        jwt_verify env token = Some p ->
        payload_id p = Some uid ->
        uid <> "" ->
        valid_id env uid = true ->
        us !! uid = Some u ->
        forwarded (exec (notesRouter.post env request) (initial ns us))
        = Some ValidationError
        /\ client_status w = Some 400).
Proof.
  intros Hc w.
  destruct (serve_stores (notesRouter.post env request) ns us) as (Hn & Hu & _).
  assert (Hst : note_store w = ns /\ user_store w = us).
  { subst w. rewrite Hn, Hu.
    destruct (post_outcome env request ns us)
      as [Hn' Hu' | uid u c _ _ Hc' _ _ _]; [auto | congruence]. }
  destruct Hst as [Hns Hus]. split; [exact Hns | split; [exact Hus | ]].
  intros token uid p u Htok Hver Hid Hne Hvalid Hlook.
  assert (Ht : Js.truthy (payload_id p) = true).
  { rewrite Hid. destruct uid; [congruence | reflexivity]. }
  assert (Hrun : exec (notesRouter.post env request) (initial ns us)
                 = with_forwarded ValidationError
                     (with_call Call_Note_save
                        (with_call (Call_User_findById (Some uid))
                           (with_call (Call_jwt_verify (Some token))
                              (initial ns us))))).
  { unfold exec. rewrite (post_with_id env request token p) by assumption.
    rewrite Hid. unfold try_catch.
    rewrite (create_for_rejected env uid u) by (rewrite ?Hc; auto).
    reflexivity. }
  split; [now rewrite Hrun | ].
  unfold client_status. subst w.
  rewrite (serve_forwarded _ _ _ ValidationError); rewrite ?Hrun; reflexivity.
Qed.

Lemma post_without_content_witness :
  let request := Sample.note_request
                   (Sample.bearer ("id=" ++ Sample.root_id)) ""
                   None (Some false) in
  let w := serve (notesRouter.post Sample.env request)
             Sample.one_note Sample.users in
  note_store w = Sample.one_note
  /\ client_status w = Some 400.
Proof.
  intros request w.
  destruct (post_without_content Sample.env request Sample.one_note Sample.users
              eq_refl) as (Hn & _ & H).
  destruct (H ("id=" ++ Sample.root_id) Sample.root_id
              (mkPayload (Some "root") (Some Sample.root_id)) Sample.root
              eq_refl eq_refl eq_refl ltac:(discriminate) eq_refl eq_refl)
    as [_ Hs].
  exact (conj Hn Hs).
Defined.

End CreateClaims.

(** ** Reading, deleting and updating a note by id *)
Section ById.
Implicit Types (env : Env) (ns : gmap string Note) (us : gmap string User).

(** The run of the get handler, by the three cases of the id. *)
Lemma get_exec env {B} (request : Request B) ns us :
  let id := params_id request in
  exec (notesRouter.get env request) (initial ns us)
  = let w := with_call (Call_Note_findById id) (initial ns us) in
    if valid_id env id
    then match ns !! id with
         | Some n => Express.write (Some (JNote id n)) w
         | None => responded 404 None w
         end
    else with_forwarded CastError w.
Proof.
  unfold exec, notesRouter.get. run.
  destruct (valid_id env (params_id request)); simpl; [ | reflexivity].
  destruct (ns !! params_id request); reflexivity.
Qed.

(** The run of the delete handler. *)
Lemma delete_exec env {B} (request : Request B) ns us :
  let id := params_id request in
  exec (notesRouter.delete env request) (initial ns us)
  = let w := with_call (Call_Note_findByIdAndRemove id) (initial ns us) in
    if valid_id env id
    then responded 204 None (with_notes (delete id ns) w)
    else with_forwarded CastError w.
Proof.
  unfold exec, notesRouter.delete. run.
  destruct (valid_id env (params_id request)); reflexivity.
Qed.

(** The run of the update handler. *)
Lemma put_exec env (request : Request NoteBody) ns us :
  let id := params_id request in
  let c := body_content (body request) in
  let imp := body_important (body request) in
  exec (notesRouter.put env request) (initial ns us)
  = let w := with_call (Call_Note_findByIdAndUpdate id) (initial ns us) in
    if valid_id env id
    then match ns !! id with
         | Some n =>
             Express.write (Some (JNote id (apply_update c imp n)))
               (with_notes (<[id := apply_update c imp n]> ns) w)
         | None => Express.write (Some JNull) w
         end
    else with_forwarded CastError w.
Proof.
  unfold exec, notesRouter.put. run.
  destruct (valid_id env (params_id request)); simpl; [ | reflexivity].
  destruct (ns !! params_id request); reflexivity.
Qed.

(** A handler that forwarded nothing is served as it ran. *)
Lemma serve_quiet (h : M unit) ns us :
  forwarded (exec h (initial ns us)) = None ->
  serve h ns us = exec h (initial ns us).
Proof. intros H. unfold serve. now rewrite H. Qed.

(** Updating a note whose id is well formed but not stored answers 200
    with a null body. *)
Lemma put_unknown_id env (request : Request NoteBody) ns us :
  valid_id env (params_id request) = true ->
  ns !! params_id request = None ->
  client_sees (serve (notesRouter.put env request) ns us) = Some (200, Some JNull)
  /\ forwarded (exec (notesRouter.put env request) (initial ns us)) = None.
Proof.
  intros Hv Hn.
  assert (Hrun := put_exec env request ns us). simpl in Hrun.
  rewrite Hv, Hn in Hrun.
  rewrite serve_quiet; rewrite Hrun; split; reflexivity.
Qed.

(** C2: the update handler at a well-formed id that no stored note has, here
    with the body [{content: "x"}] on a store holding one other note. The
    lookup resolves to null and the handler sends it as JSON under the
    default status: the client receives 200 with body null, nothing is
    forwarded to the error handler, and no 404 is produced. *)
Theorem put_missing_note_answers_200_null :
  let request := Sample.note_request None Sample.note_id2 (Some "x") None in
  let w := serve (notesRouter.put Sample.env request) Sample.one_note Sample.users in
  valid_id Sample.env (params_id request) = true
  /\ Sample.one_note !! params_id request = None
  /\ client_sees w = Some (200, Some JNull)
  /\ forwarded w = None
  /\ client_status w <> Some 404.
Proof.
  intros request w.
  assert (Hv : valid_id Sample.env (params_id request) = true) by reflexivity.
  assert (Hn : Sample.one_note !! params_id request = None) by reflexivity.
  destruct (put_unknown_id Sample.env request Sample.one_note Sample.users Hv Hn)
    as [Hs Hf].
  split; [exact Hv | split; [exact Hn | split; [exact Hs | ]]].
  split.
  - subst w. rewrite serve_quiet; assumption.
  - unfold client_status. subst w. rewrite Hs. simpl. congruence.
Qed.

(** C7: the get-by-id handler answers 200 with the note when the id is well
    formed and stored, 404 without body when it is well formed and not
    stored, and forwards a cast error that is answered 400 (so neither 404
    nor 500) when the id is not well formed. *)
Theorem get_by_id_outcomes env {B} (request : Request B) ns us :
  let id := params_id request in
  let w := serve (notesRouter.get env request) ns us in
  (valid_id env id = true ->
   forall n, ns !! id = Some n -> client_sees w = Some (200, Some (JNote id n)))
  /\ (valid_id env id = true -> ns !! id = None -> client_sees w = Some (404, None))
  /\ (valid_id env id = false ->
      forwarded (exec (notesRouter.get env request) (initial ns us)) = Some CastError
      /\ client_status w = Some 400
      /\ client_status w <> Some 404
      /\ client_status w <> Some 500).
Proof.
  intros id w.
  assert (Hrun := get_exec env request ns us). simpl in Hrun. fold id in Hrun.
  split; [ | split].
  - intros Hv n Hn. rewrite Hv, Hn in Hrun.
    subst w. rewrite serve_quiet; rewrite Hrun; reflexivity.
  - intros Hv Hn. rewrite Hv, Hn in Hrun.
    subst w. rewrite serve_quiet; rewrite Hrun; reflexivity.
  - intros Hv. rewrite Hv in Hrun.
    assert (Hs : client_sees w = Some (400, Some (JError "CastError"))).
    { subst w. rewrite (serve_forwarded _ _ _ CastError); rewrite ?Hrun; reflexivity. }
    unfold client_status. rewrite Hs, Hrun. simpl.
    repeat split; congruence.
Qed.

Lemma get_by_id_outcomes_witness :
  let found := Sample.note_request None Sample.note_id None None in
  let missing := Sample.note_request None Sample.note_id2 None None in
  let malformed := Sample.note_request None Sample.invalid_id None None in
  client_sees (serve (notesRouter.get Sample.env found) Sample.one_note Sample.users)
  = Some (200, Some (JNote Sample.note_id Sample.html))
  /\ client_sees (serve (notesRouter.get Sample.env missing) Sample.one_note Sample.users)
     = Some (404, None)
  /\ client_status (serve (notesRouter.get Sample.env malformed)
                      Sample.one_note Sample.users)
     = Some 400.
Proof.
  intros found missing malformed. split; [ | split].
  - destruct (get_by_id_outcomes Sample.env found Sample.one_note Sample.users)
      as (H & _ & _).
    exact (H eq_refl Sample.html eq_refl).
  - destruct (get_by_id_outcomes Sample.env missing Sample.one_note Sample.users)
      as (_ & H & _).
    exact (H eq_refl eq_refl).
  - destruct (get_by_id_outcomes Sample.env malformed Sample.one_note Sample.users)
      as (_ & _ & H).
    destruct (H eq_refl) as (_ & Hs & _). exact Hs.
Defined.

End ById.

(** ** Deleting is idempotent *)
Section Delete.
Implicit Types (env : Env) (ns : gmap string Note) (us : gmap string User).

Lemma get_all_exec ns us :
  exec notesRouter.get_all (initial ns us)
  = Express.write (Some (JNotes (populate us <$> map_to_list ns)))
      (with_call Call_Note_find (initial ns us)).
Proof. reflexivity. Qed.

(** The list response holds exactly the stored notes. *)
Lemma listed_notes ns us :
  client_sees (serve notesRouter.get_all ns us)
  = Some (200, Some (JNotes (populate us <$> map_to_list ns))).
Proof. rewrite serve_quiet; rewrite get_all_exec; reflexivity. Qed.

Lemma elem_of_listed ns us (pn : PopulatedNote) :
  pn ∈ populate us <$> map_to_list ns ->
  exists n, ns !! pop_id pn = Some n /\ pop_content pn = content n.
Proof.
  intros ([id n] & -> & Hin)%list_elem_of_fmap.
  apply elem_of_map_to_list in Hin. exists n. now split.
Qed.

Lemma serve_delete env {B} (request : Request B) ns us :
  valid_id env (params_id request) = true ->
  let w := serve (notesRouter.delete env request) ns us in
  client_sees w = Some (204, None)
  /\ note_store w = delete (params_id request) ns
  /\ user_store w = us.
Proof.
  intros Hv w.
  assert (Hrun := delete_exec env request ns us). simpl in Hrun.
  rewrite Hv in Hrun.
  subst w. rewrite serve_quiet; rewrite Hrun; auto.
Qed.

(** C8, as stated, on a store with two notes of the same content: deleting
    one of them answers 204, and the content of the deleted note is still
    in the list result, carried by the other note. *)
Lemma delete_twin_counterexample :
  let request := Sample.note_request None Sample.note_id None None in
  let w := serve (notesRouter.delete Sample.env request) Sample.twins Sample.users in
  Sample.twins !! Sample.note_id = Some Sample.html
  /\ client_sees w = Some (204, None)
  /\ note_store w !! Sample.note_id = None
  /\ contents_of (client_sees (serve notesRouter.get_all (note_store w) (user_store w)))
     = [content Sample.html].
Proof. repeat split; vm_compute; reflexivity. Qed.

(** C8, amended: for every well-formed id the delete handler answers 204
    without body, whether or not a note with that id was stored, and leaves
    the store without that id; the list result then has no note with that
    id, and does not have the deleted note's content unless another stored
    note carries the same content; a second delete of the id answers 204
    again and changes nothing. *)
Theorem delete_is_idempotent env {B} (request : Request B) ns us :
  valid_id env (params_id request) = true ->
  let id := params_id request in
  let w1 := serve (notesRouter.delete env request) ns us in
  let w2 := serve (notesRouter.delete env request) (note_store w1) (user_store w1) in
  let listed := client_sees (serve notesRouter.get_all (note_store w1) (user_store w1)) in
  client_sees w1 = Some (204, None)
  /\ note_store w1 = delete id ns
  /\ user_store w1 = us
  /\ (exists l, listed = Some (200, Some (JNotes l))
                /\ forall pn, pn ∈ l -> pop_id pn <> id)
  /\ (forall n, ns !! id = Some n ->
        (forall id' n', ns !! id' = Some n' -> id' <> id -> content n' <> content n) ->
        content n ∉ contents_of listed)
  /\ client_sees w2 = Some (204, None)
  /\ note_store w2 = note_store w1
  /\ user_store w2 = user_store w1.
Proof.
  intros Hv id w1 w2 listed.
  destruct (serve_delete env request ns us Hv) as (Hs1 & Hn1 & Hu1).
  fold id w1 in Hs1, Hn1, Hu1.
  destruct (serve_delete env request (note_store w1) (user_store w1) Hv)
    as (Hs2 & Hn2 & Hu2).
  fold id w2 in Hs2, Hn2, Hu2.
  assert (Hl : listed = Some (200, Some (JNotes (populate us <$> map_to_list (delete id ns))))).
  { subst listed. rewrite listed_notes, Hn1, Hu1. reflexivity. }
  split; [exact Hs1 | split; [exact Hn1 | split; [exact Hu1 | ]]].
  split; [ | split].
  - eexists. split; [exact Hl | ].
    intros pn (n & Hlook & _)%elem_of_listed Heq.
    rewrite Heq, lookup_delete_eq in Hlook. discriminate.
  - intros n Hn Hother. rewrite Hl. simpl.
    intros (pn & Hc & (n' & Hlook & Hc')%elem_of_listed)%list_elem_of_fmap.
    apply lookup_delete_Some in Hlook as [Hne Hlook].
    apply (Hother (pop_id pn) n' Hlook); congruence.
  - split; [exact Hs2 | split; [ | exact Hu2]].
    rewrite Hn2, Hn1. apply delete_delete_eq.
Qed.

Lemma delete_is_idempotent_witness :
  let request := Sample.note_request None Sample.note_id None None in
  let w1 := serve (notesRouter.delete Sample.env request) Sample.one_note Sample.users in
  let w2 := serve (notesRouter.delete Sample.env request)
              (note_store w1) (user_store w1) in
  client_sees w1 = Some (204, None)
  /\ client_sees w2 = Some (204, None)
  /\ content Sample.html
       ∉ contents_of (client_sees (serve notesRouter.get_all
                                     (note_store w1) (user_store w1))).
Proof.
  intros request w1 w2.
  destruct (delete_is_idempotent Sample.env request Sample.one_note Sample.users
              eq_refl) as (H1 & _ & _ & _ & Hc & H2 & _).
  split; [exact H1 | split; [exact H2 | ]].
  apply (Hc Sample.html eq_refl).
  intros id' n' Hlook Hne. unfold Sample.one_note in Hlook.
  apply lookup_singleton_Some in Hlook as [<- _]. now destruct Hne.
Defined.

End Delete.

(** ** The note invariant under the writing handlers *)
Section Invariant.
Implicit Types (env : Env) (ns : gmap string Note) (us : gmap string User).

(** Saving a user under an id that is already stored keeps every owner
    reference valid. *)
Lemma owner_ok_resave us (uid : string) (u u' : User) (n : Note) :
  us !! uid = Some u -> owner_ok us n -> owner_ok (<[uid := u']> us) n.
Proof.
  intros Hu (o & v & Ho & Hv). unfold owner_ok.
  destruct (decide (uid = o)) as [<- | Hne].
  - exists uid, u'. split; [exact Ho | apply lookup_insert_eq].
  - exists o, v. split; [exact Ho | ]. now rewrite lookup_insert_ne.
Qed.

Lemma notes_ok_created ns us (uid : string) (u : User) (c : string) (imp : bool)
    (w : World) :
  note_store w = ns -> user_store w = us ->
  notes_ok ns us ->
  us !! uid = Some u ->
  c <> "" ->
  world_ok (created uid u c imp w).
Proof.
  intros <- <- Hok Hu Hc id n. simpl.
  rewrite lookup_insert_Some. intros [[_ <-] | [_ Hn]].
  - split; [exact Hc | ]. exists uid. eexists.
    split; [reflexivity | apply lookup_insert_eq].
  - destruct (Hok id n Hn) as [Hcontent Howner].
    split; [exact Hcontent | ]. now apply (owner_ok_resave _ uid u).
Qed.

Lemma notes_ok_delete ns us (id : string) :
  notes_ok ns us -> notes_ok (delete id ns) us.
Proof.
  intros Hok i n Hn. apply lookup_delete_Some in Hn as [_ Hn]. now apply (Hok i).
Qed.

Lemma world_ok_stores (w w' : World) :
  note_store w' = note_store w -> user_store w' = user_store w ->
  world_ok w -> world_ok w'.
Proof. unfold world_ok. now intros -> ->. Qed.

Lemma post_preserves env (request : Request NoteBody) ns us :
  notes_ok ns us -> world_ok (serve (notesRouter.post env request) ns us).
Proof.
  intros Hok.
  destruct (serve_stores (notesRouter.post env request) ns us) as (Hn & Hu & _).
  apply (world_ok_stores _ _ Hn Hu).
  destruct (post_outcome env request ns us)
    as [Hn' Hu' | uid u c _ Hl _ Hne Hn' Hu'].
  - now apply (world_ok_stores (initial ns us)).
  - apply (world_ok_stores _ _ Hn' Hu').
    now apply (notes_ok_created ns us).
Qed.

Lemma delete_preserves env {B} (request : Request B) ns us :
  notes_ok ns us -> world_ok (serve (notesRouter.delete env request) ns us).
Proof.
  intros Hok.
  destruct (serve_stores (notesRouter.delete env request) ns us) as (Hn & Hu & _).
  unfold world_ok. rewrite Hn, Hu, delete_exec. simpl.
  destruct (valid_id env (params_id request)); simpl; [ | exact Hok].
  now apply notes_ok_delete.
Qed.

(** What the update handler leaves in the note store. *)
Lemma put_stores env (request : Request NoteBody) ns us :
  let w := serve (notesRouter.put env request) ns us in
  user_store w = us
  /\ forall id n, note_store w !! id = Some n ->
       ns !! id = Some n
       \/ exists old, ns !! id = Some old
                      /\ n = apply_update (body_content (body request))
                               (body_important (body request)) old.
Proof.
  intros w.
  destruct (serve_stores (notesRouter.put env request) ns us) as (Hn & Hu & _).
  fold w in Hn, Hu. rewrite Hn, Hu, put_exec. simpl.
  destruct (valid_id env (params_id request)); simpl; [ | auto].
  destruct (ns !! params_id request) as [old|] eqn:Hold; simpl; [ | auto].
  split; [reflexivity | ].
  intros id n. rewrite lookup_insert_Some. intros [[<- <-] | [_ Hl]]; [ | auto].
  right. now exists old.
Qed.

(** An update that carries the empty string as content, on a stored note
    with a well-formed id: the handler answers 200 and the note is stored
    with empty content, whatever the store held. *)
Lemma put_empty_content_stored env (request : Request NoteBody) ns us (n : Note) :
  valid_id env (params_id request) = true ->
  ns !! params_id request = Some n ->
  body_content (body request) = Some "" ->
  let w := serve (notesRouter.put env request) ns us in
  client_status w = Some 200
  /\ forwarded w = None
  /\ (exists n', note_store w !! params_id request = Some n' /\ content n' = "")
  /\ ~ world_ok w.
Proof.
  intros Hv Hn Hc w.
  assert (Hrun := put_exec env request ns us). simpl in Hrun.
  rewrite Hv, Hn, Hc in Hrun.
  assert (Hw : w = exec (notesRouter.put env request) (initial ns us)).
  { subst w. apply serve_quiet. now rewrite Hrun. }
  assert (Hl : note_store w !! params_id request
               = Some (apply_update (Some "") (body_important (body request)) n)).
  { rewrite Hw, Hrun. simpl. apply lookup_insert_eq. }
  split; [now rewrite Hw, Hrun | ].
  split; [now rewrite Hw, Hrun | ].
  split; [eexists; split; [exact Hl | reflexivity] | ].
  intros Hok. destruct (Hok _ _ Hl) as [Hcontent _]. now apply Hcontent.
Qed.

(** C4: the invariant is broken by the update handler. On a store that
    satisfies it, an update of the stored note with the empty string as
    content answers 200 and leaves that note stored with empty content, so
    the invariant no longer holds. The create handler, given the same empty
    content by the note's owner, is stopped by validation and stores
    nothing: the update path misses the check that the create path has. *)
Theorem put_empty_content_breaks_invariant :
  let update := Sample.note_request None Sample.note_id (Some "") None in
  let create := Sample.note_request (Sample.bearer ("id=" ++ Sample.root_id)) ""
                  (Some "") None in
  let w := serve (notesRouter.put Sample.env update) Sample.one_note Sample.users in
  let w' := serve (notesRouter.post Sample.env create) Sample.one_note Sample.users in
  notes_ok Sample.one_note Sample.users
  /\ client_sees w = Some (200, Some (JNote Sample.note_id
                                        (mkNote "" false (Some Sample.root_id))))
  /\ note_store w !! Sample.note_id = Some (mkNote "" false (Some Sample.root_id))
  /\ ~ world_ok w
  /\ forwarded w' = Some ValidationError
  /\ note_store w' = Sample.one_note
  /\ world_ok w'.
Proof.
  intros update create w w'.
  assert (Hok : notes_ok Sample.one_note Sample.users).
  { intros id n Hn. unfold Sample.one_note in Hn.
    apply lookup_singleton_Some in Hn as [_ <-].
    split; [discriminate | ].
    exists Sample.root_id, Sample.root. split; reflexivity. }
  split; [exact Hok | ].
  split; [vm_compute; reflexivity | ].
  split; [vm_compute; reflexivity | ].
  split.
  { destruct (put_empty_content_stored Sample.env update
                Sample.one_note Sample.users Sample.html eq_refl eq_refl eq_refl)
      as (_ & _ & _ & Hbroken).
    exact Hbroken. }
  split; [vm_compute; reflexivity | ].
  split; [vm_compute; reflexivity | ].
  now apply post_preserves.
Qed.

(** X17: what the writing handlers keep of the note invariant. When every
    stored note has non-empty content and a stored owner, that still holds
    after a create request and after a delete request. After an update
    request every stored note still has a stored owner, and the whole
    invariant still holds unless the update carries the empty string as
    content: an update without content, or with non-empty content, keeps
    it. *)
Theorem writes_preserve_note_invariant env {B}
    (create update : Request NoteBody) (remove : Request B) ns us :
  notes_ok ns us ->
  world_ok (serve (notesRouter.post env create) ns us)
  /\ world_ok (serve (notesRouter.delete env remove) ns us)
  /\ owners_ok (serve (notesRouter.put env update) ns us)
  /\ (body_content (body update) <> Some "" ->
      world_ok (serve (notesRouter.put env update) ns us)).
Proof.
  intros Hok.
  split; [now apply post_preserves | split; [now apply delete_preserves | ]].
  destruct (put_stores env update ns us) as [Hu Hn].
  split.
  - intros id n Hl. rewrite Hu.
    destruct (Hn id n Hl) as [Hsame | (old & Hold & ->)].
    + now destruct (Hok id n Hsame).
    + now destruct (Hok id old Hold).
  - intros Hne id n Hl. rewrite Hu.
    destruct (Hn id n Hl) as [Hsame | (old & Hold & ->)].
    + now apply (Hok id).
    + destruct (Hok id old Hold) as [Hcontent Howner].
      split; [ | exact Howner].
      destruct (body_content (body update)) as [c|]; simpl; [ | exact Hcontent].
      intros ->. now apply Hne.
Qed.

Lemma writes_preserve_note_invariant_witness :
  let create := Sample.note_request (Sample.bearer ("id=" ++ Sample.root_id)) ""
                  (Some "x") None in
  let update := Sample.note_request None Sample.note_id (Some "y") (Some true) in
  let flag := Sample.note_request None Sample.note_id None (Some true) in
  world_ok (serve (notesRouter.post Sample.env create) Sample.one_note Sample.users)
  /\ world_ok (serve (notesRouter.put Sample.env update) Sample.one_note Sample.users)
  /\ world_ok (serve (notesRouter.put Sample.env flag) Sample.one_note Sample.users).
Proof.
  intros create update flag.
  assert (Hok : notes_ok Sample.one_note Sample.users).
  { intros id n Hn. unfold Sample.one_note in Hn.
    apply lookup_singleton_Some in Hn as [_ <-].
    split; [discriminate | ].
    exists Sample.root_id, Sample.root. split; reflexivity. }
  destruct (writes_preserve_note_invariant Sample.env create update update
              Sample.one_note Sample.users Hok) as (Hpost & _ & _ & Hput).
  destruct (writes_preserve_note_invariant Sample.env create flag flag
              Sample.one_note Sample.users Hok) as (_ & _ & _ & Hflag).
  split; [exact Hpost | split].
  - apply Hput. discriminate.
  - apply Hflag. discriminate.
Defined.

End Invariant.

(** ** Logging in *)
Section Login.
Implicit Types (env : Env) (ns : gmap string Note) (us : gmap string User).
Implicit Types (request : Request LoginBody).

(** [findOne] returns a stored user with the username, when there is one. *)
Lemma findOne_Some us (uname : string) (d : string * User) :
  List.find (fun d => String.eqb (username (snd d)) uname) (map_to_list us) = Some d ->
  us !! fst d = Some (snd d) /\ username (snd d) = uname.
Proof.
  intros H. apply find_some in H as [Hin Heq]. split.
  - apply elem_of_map_to_list. destruct d. now apply list_elem_of_In.
  - now apply String.eqb_eq.
Qed.

Lemma findOne_None us (uname : string) :
  (forall id u, us !! id = Some u -> username u <> uname) ->
  List.find (fun d => String.eqb (username (snd d)) uname) (map_to_list us) = None.
Proof.
  intros Habs.
  destruct (List.find _ _) as [d|] eqn:H; [ | reflexivity].
  apply findOne_Some in H as [Hl Hn]. now destruct (Habs _ _ Hl).
Qed.

(** The run of the login handler when no user is found. *)
Lemma login_exec_absent env request ns us :
  List.find (fun d => String.eqb (username (snd d)) (body_username (body request)))
            (map_to_list us) = None ->
  exec (loginRouter.post env request) (initial ns us)
  = mkWorld ns us
      (mkResponse 400
         (Some (401, Some (JErrorMessage "username or password is invalid"))))
      [Call_User_findOne (body_username (body request))]
      (Some TypeError).
Proof.
  intros H. unfold exec, loginRouter.post. run. rewrite H. reflexivity.
Qed.

(** The run of the login handler when the user is found and the password
    does not match: after the 401, the token is still signed and the
    second response throws. *)
Lemma login_exec_mismatch env request ns us (d : string * User) :
  List.find (fun d => String.eqb (username (snd d)) (body_username (body request)))
            (map_to_list us) = Some d ->
  bcrypt_compare env (body_password (body request)) (passwordHash (snd d)) = false ->
  exec (loginRouter.post env request) (initial ns us)
  = mkWorld ns us
      (mkResponse 400
         (Some (401, Some (JErrorMessage "username or password is invalid"))))
      [Call_User_findOne (body_username (body request));
       Call_bcrypt_compare (body_password (body request)) (passwordHash (snd d));
       Call_jwt_sign (mkPayload (Some (username (snd d))) (Some (fst d)))]
      (Some HeadersSentError).
Proof.
  intros H Hc. unfold exec, loginRouter.post. run. rewrite H. simpl.
  rewrite Hc. reflexivity.
Qed.

(** C3: when every stored user with the request's username fails the
    password comparison (in particular when there is no such user), the
    client receives 401 with the message "username or password is invalid";
    and when no stored user has the username, the handler's only call is
    the lookup: the comparison is taken as failed without being made. *)
Theorem login_rejects_bad_credentials env request ns us :
  let uname := body_username (body request) in
  let password := body_password (body request) in
  (forall id u, us !! id = Some u -> username u = uname ->
                bcrypt_compare env password (passwordHash u) = false) ->
  let w := serve (loginRouter.post env request) ns us in
  client_sees w = Some (401, Some (JErrorMessage "username or password is invalid"))
  /\ ((forall id u, us !! id = Some u -> username u <> uname) ->
      calls w = [Call_User_findOne uname]
      /\ forall pw h, Call_bcrypt_compare pw h ∉ calls w).
Proof.
  intros uname password Hbad w.
  destruct (serve_stores (loginRouter.post env request) ns us) as (_ & _ & Hcalls).
  fold w in Hcalls.
  split.
  - subst w. apply serve_sent.
    destruct (List.find (fun d => String.eqb (username (snd d)) uname) (map_to_list us))
      as [d|] eqn:Hfind.
    + destruct (findOne_Some us uname d Hfind) as [Hl Hn].
      rewrite (login_exec_mismatch env request ns us d Hfind); [reflexivity | ].
      now apply (Hbad (fst d)).
    + now rewrite (login_exec_absent env request ns us Hfind).
  - intros Habs.
    assert (Hc : calls w = [Call_User_findOne uname]).
    { rewrite Hcalls, login_exec_absent; [reflexivity | ].
      now apply findOne_None. }
    split; [exact Hc | ].
    intros pw h. rewrite Hc. intros Hin%list_elem_of_singleton. discriminate.
Qed.

Lemma login_rejects_bad_credentials_witness :
  let unknown := Sample.login_request "nobody" "secret" in
  let wrong := Sample.login_request "root" "guess" in
  calls (serve (loginRouter.post Sample.env unknown) Sample.one_note Sample.users)
  = [Call_User_findOne "nobody"]
  /\ client_sees (serve (loginRouter.post Sample.env wrong) Sample.one_note Sample.users)
     = Some (401, Some (JErrorMessage "username or password is invalid")).
Proof.
  intros unknown wrong.
  assert (Hroot : forall id u, Sample.users !! id = Some u -> u = Sample.root).
  { intros id u Hl. unfold Sample.users in Hl.
    now apply lookup_singleton_Some in Hl as [_ <-]. }
  split.
  - destruct (login_rejects_bad_credentials Sample.env unknown
                Sample.one_note Sample.users) as [_ H].
    + intros id u Hl Hn. apply Hroot in Hl as ->. discriminate.
    + destruct H as [Hc _]; [ | exact Hc].
      intros id u Hl. apply Hroot in Hl as ->. discriminate.
  - destruct (login_rejects_bad_credentials Sample.env wrong
                Sample.one_note Sample.users) as [H _]; [ | exact H].
    intros id u Hl _. apply Hroot in Hl as ->. reflexivity.
Defined.

End Login.

(** * Further properties of the controllers *)

(** ** The bearer token and who may write *)
Section Authentication.
Implicit Types (env : Env) (ns : gmap string Note) (us : gmap string User).
Implicit Types (request : Request NoteBody).

(** Stripping the scheme from a well-formed header. *)
Lemma getTokenFrom_bearer_unpacked {B} (token id : string) (b : B) :
  getTokenFrom (mkRequest (Some ("Bearer " ++ token)) id b) = Some token.
Proof.
  assert (Hs : Js.startsWith ("Bearer " ++ token) "Bearer" = true).
  { apply JsFacts.startsWith_app. now exists (" " ++ token). }
  unfold getTokenFrom. simpl authorization. cbv iota beta.
  rewrite Hs. change (Js.truthy_string ("Bearer " ++ token)) with true.
  cbv iota beta. simpl andb. cbv iota.
  f_equal. apply (JsFacts.replace_first _ "Bearer " "" token).
  - discriminate.
  - reflexivity.
  - intros pre' post' _. simpl. lia.
Qed.

(** X1: the header [Bearer <token>] gives back the token, whatever the
    token is: a token that itself contains "Bearer " keeps it, and the
    empty token comes back as the empty string, not as null. *)
Theorem getTokenFrom_bearer_roundtrip {B} (token id : string) (b : B) :
  getTokenFrom (mkRequest (Some ("Bearer " ++ token)) id b) = Some token
  /\ getTokenFrom (mkRequest (Some ("Bearer " ++ "Bearer " ++ token)) id b)
     = Some ("Bearer " ++ token)
  /\ getTokenFrom (mkRequest (Some "Bearer ") id b) = Some "".
Proof.
  split; [apply getTokenFrom_bearer_unpacked | ].
  split; [apply getTokenFrom_bearer_unpacked | reflexivity].
Qed.

(** The run of the create handler on its success path. *)
Lemma post_exec_created env request ns us
    (token uid c : string) (p : Payload) (u : User) :
  getTokenFrom request = Some token ->
  jwt_verify env token = Some p ->
  payload_id p = Some uid ->
  uid <> "" ->
  valid_id env uid = true ->
  us !! uid = Some u ->
  body_content (body request) = Some c ->
  c <> "" ->
  let imp := Js.or_false (body_important (body request)) in
  serve (notesRouter.post env request) ns us
  = responded 201 (Some (JNote (fresh (dom ns)) (mkNote c imp (Some uid))))
      (created uid u c imp
         (with_call (Call_jwt_verify (Some token)) (initial ns us))).
Proof.
  intros Htok Hver Hid Hne Hvalid Hu Hc Hcne imp.
  assert (Ht : Js.truthy (payload_id p) = true).
  { rewrite Hid. destruct uid; [congruence | reflexivity]. }
  assert (Hrun : exec (notesRouter.post env request) (initial ns us)
                 = responded 201 (Some (JNote (fresh (dom ns)) (mkNote c imp (Some uid))))
                     (created uid u c imp
                        (with_call (Call_jwt_verify (Some token)) (initial ns us)))).
  { unfold exec. rewrite (post_with_id env request token p) by assumption.
    rewrite Hid. unfold try_catch.
    rewrite (create_for_saved env uid u (body request) c) by assumption.
    rewrite status_json_open by reflexivity. reflexivity. }
  unfold serve. rewrite Hrun. reflexivity.
Qed.

(** X2: a token that does not verify stops the create handler at the
    verification: no store is read or written, the handler sends nothing
    and forwards the token error. *)
Theorem post_rejects_unverified_token env request ns us (token : string) :
  getTokenFrom request = Some token ->
  jwt_verify env token = None ->
  let w := exec (notesRouter.post env request) (initial ns us) in
  calls w = [Call_jwt_verify (Some token)]
  /\ forwarded w = Some JsonWebTokenError
  /\ client_sees w = None
  /\ note_store w = ns /\ user_store w = us.
Proof.
  intros Htok Hver w. subst w. unfold exec.
  rewrite (post_bad_token env request token) by assumption.
  simpl. auto 10.
Qed.

Lemma post_rejects_unverified_token_witness :
  let request := Sample.note_request (Sample.bearer "forged") ""
                   (Some "x") None in
  let w := exec (notesRouter.post Sample.env request)
             (initial Sample.one_note Sample.users) in
  forwarded w = Some JsonWebTokenError /\ note_store w = Sample.one_note.
Proof.
  intros request w.
  destruct (post_rejects_unverified_token Sample.env request
              Sample.one_note Sample.users "forged" eq_refl eq_refl)
    as (_ & Hf & _ & Hn & _).
  exact (conj Hf Hn).
Defined.

(** X3: the create handler writes only for an authenticated, stored user.
    After any create request either both stores are as before, or the
    request carried a token that verifies with the id of a stored user and
    non-empty content, and then exactly the new note was added, owned by
    that user, and its id was appended to that user's notes. *)
Theorem post_writes_only_when_authenticated env request ns us :
  let w := serve (notesRouter.post env request) ns us in
  (note_store w = ns /\ user_store w = us)
  \/ exists (token uid c : string) (p : Payload) (u : User),
       getTokenFrom request = Some token
       /\ jwt_verify env token = Some p
       /\ payload_id p = Some uid
       /\ valid_id env uid = true
       /\ us !! uid = Some u
       /\ body_content (body request) = Some c /\ c <> ""
       /\ ns !! fresh (dom ns) = None
       /\ note_store w
          = <[fresh (dom ns) :=
                mkNote c (Js.or_false (body_important (body request))) (Some uid)]> ns
       /\ user_store w
          = <[uid := mkUser (username u) (name u) (passwordHash u)
                            (notes u ++ [fresh (dom ns)])]> us.
Proof.
  intros w.
  destruct (serve_stores (notesRouter.post env request) ns us) as (Hn & Hu & _).
  fold w in Hn, Hu. rewrite Hn, Hu. clear Hn Hu w. unfold exec.
  destruct (getTokenFrom request) as [token|] eqn:Htok.
  2:{ rewrite post_no_token by assumption. now left. }
  destruct (jwt_verify env token) as [p|] eqn:Hver.
  2:{ rewrite (post_bad_token env request token) by assumption. now left. }
  assert (Hsteps : forall w0, note_store w0 = ns -> user_store w0 = us ->
            notesRouter.post env request (initial ns us)
            = try_catch (notesRouter.create_for env (payload_id p) (body request))
                Express.next w0 ->
            (note_store (snd (notesRouter.post env request (initial ns us))) = ns
             /\ user_store (snd (notesRouter.post env request (initial ns us))) = us)
            \/ exists (uid c : string) (u : User),
                 payload_id p = Some uid
                 /\ valid_id env uid = true
                 /\ us !! uid = Some u
                 /\ body_content (body request) = Some c /\ c <> ""
                 /\ note_store (snd (notesRouter.post env request (initial ns us)))
                    = <[fresh (dom ns) :=
                          mkNote c (Js.or_false (body_important (body request)))
                            (Some uid)]> ns
                 /\ user_store (snd (notesRouter.post env request (initial ns us)))
                    = <[uid := mkUser (username u) (name u) (passwordHash u)
                                      (notes u ++ [fresh (dom ns)])]> us).
  { intros w0 Hn0 Hu0 ->.
    destruct (try_next_stores
                (notesRouter.create_for env (payload_id p) (body request)) w0)
      as [-> ->].
    destruct (payload_id p) as [uid|] eqn:Hid.
    2:{ rewrite create_for_undefined. now left. }
    destruct (valid_id env uid) eqn:Hv.
    2:{ rewrite create_for_malformed by assumption. now left. }
    destruct (user_store w0 !! uid) as [u|] eqn:Hl.
    2:{ rewrite create_for_unknown by assumption. now left. }
    destruct (body_content (body request)) as [c|] eqn:Hc.
    2:{ rewrite (create_for_rejected env uid u) by (rewrite ?Hc; auto). now left. }
    destruct (decide (c = "")) as [-> | Hne].
    { rewrite (create_for_rejected env uid u) by (rewrite ?Hc; auto). now left. }
    rewrite (create_for_saved env uid u (body request) c) by assumption.
    destruct (status_json_stores 201
                (JNote (fresh (dom (note_store w0)))
                   (mkNote c (Js.or_false (body_important (body request))) (Some uid)))
                (created uid u c (Js.or_false (body_important (body request))) w0))
      as (-> & -> & _).
    right. exists uid, c, u. simpl. rewrite Hn0, Hu0 in *. auto 10. }
  destruct (Js.truthy (payload_id p)) eqn:Ht.
  - destruct (Hsteps (with_call (Call_jwt_verify (Some token)) (initial ns us))
                eq_refl eq_refl
                (post_with_id env request token p (initial ns us) Htok Hver Ht))
      as [H | (uid & c & u & H1 & H2 & H3 & H4 & H5 & H6 & H7)]; [now left | ].
    right. exists token, uid, c, p, u. auto 12 using fresh_id_unused.
  - destruct (Hsteps (responded 401 (Some (JError "invalid token"))
                        (with_call (Call_jwt_verify (Some token)) (initial ns us)))
                eq_refl eq_refl
                (post_without_id env request token p (initial ns us) Htok Hver Ht
                   eq_refl))
      as [H | (uid & c & u & H1 & H2 & H3 & H4 & H5 & H6 & H7)]; [now left | ].
    right. exists token, uid, c, p, u. auto 12 using fresh_id_unused.
Qed.

Lemma post_writes_only_when_authenticated_witness :
  let request := Sample.note_request (Sample.bearer "forged") ""
                   (Some "x") None in
  let w := serve (notesRouter.post Sample.env request)
             Sample.one_note Sample.users in
  note_store w = Sample.one_note /\ user_store w = Sample.users.
Proof.
  intros request w.
  destruct (post_writes_only_when_authenticated Sample.env request
              Sample.one_note Sample.users)
    as [H | (token & uid & c & p & u & Htok & Hver & _)]; [exact H | ].
  exfalso. injection Htok as <-. discriminate Hver.
Defined.

End Authentication.

(** ** Listing notes *)
Section Listing.
Implicit Types (env : Env) (ns : gmap string Note) (us : gmap string User).

(** X4: the list handler answers 200 with one entry for each stored note
    and nothing else: as many entries as stored notes, no id twice, and an
    entry is listed exactly when it is a stored note with its owner
    populated. It forwards no error and leaves both stores as they were. *)
Theorem get_all_lists_every_note ns us :
  let w := serve notesRouter.get_all ns us in
  exists l : list PopulatedNote,
    client_sees w = Some (200, Some (JNotes l))
    /\ length l = size ns
    /\ NoDup (pop_id <$> l)
    /\ (forall pn, pn ∈ l <->
          exists n, ns !! pop_id pn = Some n /\ pn = populate us (pop_id pn, n))
    /\ forwarded w = None
    /\ note_store w = ns /\ user_store w = us.
Proof.
  intros w. exists (populate us <$> map_to_list ns).
  assert (Hw : w = exec notesRouter.get_all (initial ns us)).
  { subst w. apply serve_quiet. reflexivity. }
  split; [apply listed_notes | ].
  split; [now rewrite length_fmap, length_map_to_list | ].
  split.
  { rewrite <- list_fmap_compose.
    replace (pop_id ∘ populate us) with (@fst string Note) by reflexivity.
    apply NoDup_fst_map_to_list. }
  split.
  { intros pn. rewrite list_elem_of_fmap. split.
    - intros ([id n] & -> & Hin). apply elem_of_map_to_list in Hin.
      exists n. now split.
    - intros (n & Hn & Hpn). exists (pop_id pn, n).
      split; [exact Hpn | now apply elem_of_map_to_list]. }
  rewrite Hw, get_all_exec. simpl. auto.
Qed.

Lemma get_all_lists_every_note_witness :
  exists l : list PopulatedNote,
    client_sees (serve notesRouter.get_all Sample.twins Sample.users)
    = Some (200, Some (JNotes l))
    /\ length l = 2.
Proof.
  destruct (get_all_lists_every_note Sample.twins Sample.users)
    as (l & Hs & Hlen & _).
  exists l. split; [exact Hs | ]. rewrite Hlen. reflexivity.
Defined.

End Listing.

(** ** Logging in: the success path and what a 200 means *)
Section LoginSuccess.
Implicit Types (env : Env) (ns : gmap string Note) (us : gmap string User).
Implicit Types (request : Request LoginBody).

(** The run of the login handler when the user is found and the password
    matches. *)
Lemma login_exec_match env request ns us (d : string * User) :
  List.find (fun d => String.eqb (username (snd d)) (body_username (body request)))
            (map_to_list us) = Some d ->
  bcrypt_compare env (body_password (body request)) (passwordHash (snd d)) = true ->
  let payload := mkPayload (Some (username (snd d))) (Some (fst d)) in
  exec (loginRouter.post env request) (initial ns us)
  = mkWorld ns us
      (mkResponse 200
         (Some (200, Some (JLogin (jwt_sign env payload)
                             (username (snd d)) (name (snd d))))))
      [Call_User_findOne (body_username (body request));
       Call_bcrypt_compare (body_password (body request)) (passwordHash (snd d));
       Call_jwt_sign payload]
      None.
Proof.
  intros H Hc payload. unfold exec, loginRouter.post. run. rewrite H. simpl.
  rewrite Hc. reflexivity.
Qed.

(** With unique usernames, [findOne] returns the user of that name. *)
Lemma findOne_unique us (uname id : string) (u : User) :
  us !! id = Some u ->
  username u = uname ->
  (forall id' u', us !! id' = Some u' -> username u' = uname -> id' = id) ->
  List.find (fun d => String.eqb (username (snd d)) uname) (map_to_list us)
  = Some (id, u).
Proof.
  intros Hu Hn Huniq.
  destruct (List.find _ _) as [[id' u']|] eqn:H.
  - apply findOne_Some in H as [Hl Hname]. simpl in *.
    assert (id' = id) by now apply (Huniq id' u').
    subst id'. congruence.
  - exfalso.
    assert (Hin : In (id, u) (map_to_list us)).
    { apply list_elem_of_In. now apply elem_of_map_to_list. }
    pose proof (find_none _ _ H _ Hin) as Hf. simpl in Hf.
    rewrite Hn, String.eqb_refl in Hf. discriminate.
Qed.

(** The three runs of the login handler, by what the lookup and the
    comparison give. *)
Lemma login_cases env request ns us :
  let w := exec (loginRouter.post env request) (initial ns us) in
  let uname := body_username (body request) in
  let password := body_password (body request) in
  (client_sees w = Some (401, Some (JErrorMessage "username or password is invalid"))
   /\ note_store w = ns /\ user_store w = us)
  \/ exists id u,
       us !! id = Some u /\ username u = uname
       /\ bcrypt_compare env password (passwordHash u) = true
       /\ w = mkWorld ns us
               (mkResponse 200
                  (Some (200, Some (JLogin
                                      (jwt_sign env (mkPayload (Some (username u)) (Some id)))
                                      (username u) (name u)))))
               [Call_User_findOne uname;
                Call_bcrypt_compare password (passwordHash u);
                Call_jwt_sign (mkPayload (Some (username u)) (Some id))]
               None.
Proof.
  intros w uname password.
  destruct (List.find (fun d => String.eqb (username (snd d)) uname) (map_to_list us))
    as [[id u]|] eqn:Hfind.
  - destruct (findOne_Some us uname (id, u) Hfind) as [Hl Hn]. simpl in Hl, Hn.
    destruct (bcrypt_compare env password (passwordHash u)) eqn:Hc.
    + right. exists id, u. repeat (split; [assumption | ]).
      subst w. now rewrite (login_exec_match env request ns us (id, u) Hfind Hc).
    + left. subst w.
      now rewrite (login_exec_mismatch env request ns us (id, u) Hfind Hc).
  - left. subst w. now rewrite (login_exec_absent env request ns us Hfind).
Qed.

(** X5: with the right password for a stored user whose username no other
    user has, the login handler looks the user up, compares the password
    with the stored hash, signs the user's username and id, and answers 200
    with that token and the user's username and name; nothing is forwarded
    and no store changes. *)
Theorem login_issues_token env request ns us (id : string) (u : User) :
  us !! id = Some u ->
  username u = body_username (body request) ->
  (forall id' u', us !! id' = Some u' ->
                  username u' = body_username (body request) -> id' = id) ->
  bcrypt_compare env (body_password (body request)) (passwordHash u) = true ->
  let w := serve (loginRouter.post env request) ns us in
  let payload := mkPayload (Some (username u)) (Some id) in
  client_sees w = Some (200, Some (JLogin (jwt_sign env payload) (username u) (name u)))
  /\ calls w = [Call_User_findOne (body_username (body request));
                Call_bcrypt_compare (body_password (body request)) (passwordHash u);
                Call_jwt_sign payload]
  /\ forwarded w = None
  /\ note_store w = ns /\ user_store w = us.
Proof.
  intros Hu Hn Huniq Hc w payload.
  pose proof (findOne_unique us _ id u Hu Hn Huniq) as Hfind.
  pose proof (login_exec_match env request ns us (id, u) Hfind Hc) as Hrun.
  simpl in Hrun.
  assert (Hw : w = exec (loginRouter.post env request) (initial ns us)).
  { subst w. apply serve_quiet. now rewrite Hrun. }
  rewrite Hw, Hrun. simpl. auto 10.
Qed.

Lemma login_issues_token_witness :
  let request := Sample.login_request "root" "secret" in
  client_sees (serve (loginRouter.post Sample.env request)
                 Sample.one_note Sample.users)
  = Some (200, Some (JLogin ("id=" ++ Sample.root_id) "root" None)).
Proof.
  intros request.
  destruct (login_issues_token Sample.env request Sample.one_note Sample.users
              Sample.root_id Sample.root eq_refl eq_refl) as (Hs & _).
  - intros id' u' Hl _. unfold Sample.users in Hl.
    now apply lookup_singleton_Some in Hl as [<- _].
  - reflexivity.
  - exact Hs.
Defined.

(** X6: the login handler never writes, and a 200 is evidence of the right
    credentials: whatever the request, both stores are as before; and when
    the client receives 200, some stored user has the request's username
    and a hash that the password matches, and the body is the token signed
    for that user's username and id, with the user's username and name. *)
Theorem login_200_means_right_credentials env request ns us :
  let w := serve (loginRouter.post env request) ns us in
  note_store w = ns /\ user_store w = us
  /\ (client_status w = Some 200 ->
      exists id u,
        us !! id = Some u
        /\ username u = body_username (body request)
        /\ bcrypt_compare env (body_password (body request)) (passwordHash u) = true
        /\ client_sees w
           = Some (200, Some (JLogin
                                (jwt_sign env (mkPayload (Some (username u)) (Some id)))
                                (username u) (name u)))).
Proof.
  intros w.
  destruct (serve_stores (loginRouter.post env request) ns us) as (Hn & Hu & _).
  fold w in Hn, Hu.
  destruct (login_cases env request ns us)
    as [(Hs & Hn' & Hu') | (id & u & Hl & Hname & Hc & Hrun)].
  - split; [congruence | split; [congruence | ]].
    intros H200. apply serve_sent in Hs. fold w in Hs.
    unfold client_status in H200. rewrite Hs in H200. discriminate.
  - rewrite Hn, Hu, Hrun. simpl.
    split; [reflexivity | split; [reflexivity | ]].
    intros _. exists id, u. repeat (split; [assumption | ]).
    subst w. rewrite serve_quiet; rewrite Hrun; reflexivity.
Qed.

Lemma login_200_means_right_credentials_witness :
  let request := Sample.login_request "root" "secret" in
  exists id u,
    Sample.users !! id = Some u /\ username u = "root"
    /\ bcrypt_compare Sample.env "secret" (passwordHash u) = true.
Proof.
  intros request.
  destruct (login_200_means_right_credentials Sample.env request
              Sample.one_note Sample.users) as (_ & _ & H).
  destruct (H eq_refl) as (id & u & Hl & Hn & Hc & _).
  exists id, u. exact (conj Hl (conj Hn Hc)).
Defined.

End LoginSuccess.

(** ** A rejected login keeps running *)
Section LoginFallThrough.
Implicit Types (env : Env) (ns : gmap string Note) (us : gmap string User).
Implicit Types (request : Request LoginBody).

(** X7: the login handler does not stop after its 401. For a stored user
    (of a username no other user has) and a wrong password it still signs a
    token for that user; the token is never sent, because the second
    response throws, and that error is forwarded. For a username nobody has
    it reads the username of null and forwards that error instead. In both
    cases the catch block leaves the status code at 400 on a response that
    went out as 401. *)
Theorem login_failure_falls_through env request ns us :
  let uname := body_username (body request) in
  let password := body_password (body request) in
  let w := exec (loginRouter.post env request) (initial ns us) in
  (forall id u,
      us !! id = Some u ->
      username u = uname ->
      (forall id' u', us !! id' = Some u' -> username u' = uname -> id' = id) ->
      bcrypt_compare env password (passwordHash u) = false ->
      calls w = [Call_User_findOne uname;
                 Call_bcrypt_compare password (passwordHash u);
                 Call_jwt_sign (mkPayload (Some (username u)) (Some id))]
      /\ forwarded w = Some HeadersSentError
      /\ client_sees w
         = Some (401, Some (JErrorMessage "username or password is invalid"))
      /\ statusCode (response w) = 400)
  /\ ((forall id u, us !! id = Some u -> username u <> uname) ->
      calls w = [Call_User_findOne uname]
      /\ forwarded w = Some TypeError
      /\ client_sees w
         = Some (401, Some (JErrorMessage "username or password is invalid"))
      /\ statusCode (response w) = 400).
Proof.
  intros uname password w. split.
  - intros id u Hu Hn Huniq Hc.
    pose proof (findOne_unique us uname id u Hu Hn Huniq) as Hfind.
    subst w. rewrite (login_exec_mismatch env request ns us (id, u) Hfind Hc).
    simpl. auto.
  - intros Habs. subst w.
    rewrite (login_exec_absent env request ns us (findOne_None us uname Habs)).
    simpl. auto.
Qed.

Lemma login_failure_falls_through_witness :
  let wrong := Sample.login_request "root" "guess" in
  let unknown := Sample.login_request "nobody" "secret" in
  forwarded (exec (loginRouter.post Sample.env wrong)
               (initial Sample.one_note Sample.users)) = Some HeadersSentError
  /\ forwarded (exec (loginRouter.post Sample.env unknown)
                  (initial Sample.one_note Sample.users)) = Some TypeError.
Proof.
  intros wrong unknown.
  assert (Hroot : forall id u, Sample.users !! id = Some u ->
                               id = Sample.root_id /\ u = Sample.root).
  { intros id u Hl. unfold Sample.users in Hl.
    now apply lookup_singleton_Some in Hl as [<- <-]. }
  split.
  - destruct (login_failure_falls_through Sample.env wrong
                Sample.one_note Sample.users) as [H _].
    destruct (H Sample.root_id Sample.root eq_refl eq_refl) as (_ & Hf & _).
    + intros id' u' Hl _. now apply Hroot in Hl as [-> _].
    + reflexivity.
    + exact Hf.
  - destruct (login_failure_falls_through Sample.env unknown
                Sample.one_note Sample.users) as [_ H].
    destruct H as (_ & Hf & _); [ | exact Hf].
    intros id u Hl. apply Hroot in Hl as [_ ->]. discriminate.
Defined.

End LoginFallThrough.

(** ** Notes by id: malformed ids, updates and deletes *)
Section ByIdMore.
Implicit Types (env : Env) (ns : gmap string Note) (us : gmap string User).

(** X8: an id outside the identifier format is treated alike by the three
    by-id handlers: the store call fails, the handler sends nothing of its
    own, forwards the cast error, and both stores are as before. *)
Theorem malformed_id_is_forwarded env {B} (read remove : Request B)
    (update : Request NoteBody) ns us :
  let outcome (id : string) (c : Call) (w : World) :=
    valid_id env id = false ->
    calls w = [c]
    /\ forwarded w = Some CastError
    /\ client_sees w = None
    /\ note_store w = ns /\ user_store w = us in
  outcome (params_id read) (Call_Note_findById (params_id read))
    (exec (notesRouter.get env read) (initial ns us))
  /\ outcome (params_id remove) (Call_Note_findByIdAndRemove (params_id remove))
       (exec (notesRouter.delete env remove) (initial ns us))
  /\ outcome (params_id update) (Call_Note_findByIdAndUpdate (params_id update))
       (exec (notesRouter.put env update) (initial ns us)).
Proof.
  intros outcome. subst outcome. cbv beta.
  split; [ | split]; intros Hv.
  - rewrite get_exec. simpl. rewrite Hv. simpl. auto 10.
  - rewrite delete_exec. simpl. rewrite Hv. simpl. auto 10.
  - rewrite put_exec. simpl. rewrite Hv. simpl. auto 10.
Qed.

Lemma malformed_id_is_forwarded_witness :
  let request := Sample.note_request None Sample.invalid_id (Some "y") None in
  forwarded (exec (notesRouter.delete Sample.env request)
               (initial Sample.one_note Sample.users)) = Some CastError
  /\ note_store (exec (notesRouter.put Sample.env request)
                   (initial Sample.one_note Sample.users)) = Sample.one_note.
Proof.
  intros request.
  destruct (malformed_id_is_forwarded Sample.env request request request
              Sample.one_note Sample.users) as (_ & Hd & Hp).
  destruct (Hd eq_refl) as (_ & Hf & _).
  destruct (Hp eq_refl) as (_ & _ & _ & Hn & _).
  exact (conj Hf Hn).
Defined.

(** The run of the update handler on a stored note. *)
Lemma serve_put_stored env (request : Request NoteBody) ns us (n : Note) :
  valid_id env (params_id request) = true ->
  ns !! params_id request = Some n ->
  let id := params_id request in
  let n' := apply_update (body_content (body request))
              (body_important (body request)) n in
  serve (notesRouter.put env request) ns us
  = Express.write (Some (JNote id n'))
      (with_notes (<[id := n']> ns)
         (with_call (Call_Note_findByIdAndUpdate id) (initial ns us))).
Proof.
  intros Hv Hn id n'.
  assert (Hrun := put_exec env request ns us). simpl in Hrun.
  rewrite Hv, Hn in Hrun.
  rewrite serve_quiet; rewrite Hrun; reflexivity.
Qed.

(** X9: updating a stored note answers 200 with the note after the update.
    The fields given in the body replace the stored ones, the owner stays,
    every other note and the number of notes stay, and the user store is as
    before. *)
Theorem put_updates_stored_note env (request : Request NoteBody) ns us (n : Note) :
  valid_id env (params_id request) = true ->
  ns !! params_id request = Some n ->
  let id := params_id request in
  let w := serve (notesRouter.put env request) ns us in
  exists n',
    client_sees w = Some (200, Some (JNote id n'))
    /\ note_store w !! id = Some n'
    /\ (forall c, body_content (body request) = Some c -> content n' = c)
    /\ (forall b, body_important (body request) = Some b -> important n' = b)
    /\ user n' = user n
    /\ (forall j, j <> id -> note_store w !! j = ns !! j)
    /\ size (note_store w) = size ns
    /\ user_store w = us
    /\ forwarded w = None.
Proof.
  intros Hv Hn id w.
  exists (apply_update (body_content (body request))
            (body_important (body request)) n).
  subst w. rewrite (serve_put_stored env request ns us n Hv Hn). simpl.
  split; [reflexivity | ].
  split; [apply lookup_insert_eq | ].
  split; [now intros c -> | ].
  split; [now intros b -> | ].
  split; [reflexivity | ].
  split; [intros j Hj; now apply lookup_insert_ne | ].
  split; [ | auto].
  apply map_size_insert_Some. now rewrite Hn.
Qed.

Lemma put_updates_stored_note_witness :
  let request := Sample.note_request None Sample.note_id (Some "CSS is hard")
                   (Some true) in
  client_sees (serve (notesRouter.put Sample.env request)
                 Sample.one_note Sample.users)
  = Some (200, Some (JNote Sample.note_id
                       (mkNote "CSS is hard" true (Some Sample.root_id)))).
Proof.
  intros request.
  destruct (put_updates_stored_note Sample.env request Sample.one_note Sample.users
              Sample.html eq_refl eq_refl)
    as (n' & Hs & _ & Hc & Hi & Hu & _).
  rewrite Hs. destruct n' as [c i o]. simpl in *.
  now rewrite (Hc _ eq_refl), (Hi _ eq_refl), Hu.
Defined.

(** X10: a note that was just updated reads back as updated: the get
    handler on the stores the update left answers 200 with the body the
    update answered with. *)
Theorem put_then_get_reads_update env (request : Request NoteBody) ns us (n : Note) :
  valid_id env (params_id request) = true ->
  ns !! params_id request = Some n ->
  let w := serve (notesRouter.put env request) ns us in
  client_sees (serve (notesRouter.get env request) (note_store w) (user_store w))
  = client_sees w
  /\ client_status w = Some 200.
Proof.
  intros Hv Hn w.
  subst w. rewrite (serve_put_stored env request ns us n Hv Hn). simpl.
  split; [ | reflexivity].
  assert (Hrun := get_exec env request
                    (<[params_id request :=
                         apply_update (body_content (body request))
                           (body_important (body request)) n]> ns) us).
  simpl in Hrun. rewrite Hv, lookup_insert_eq in Hrun.
  rewrite serve_quiet; rewrite Hrun; reflexivity.
Qed.

Lemma put_then_get_reads_update_witness :
  let request := Sample.note_request None Sample.note_id (Some "CSS is hard")
                   (Some true) in
  let w := serve (notesRouter.put Sample.env request)
             Sample.one_note Sample.users in
  client_sees (serve (notesRouter.get Sample.env request)
                 (note_store w) (user_store w))
  = client_sees w.
Proof.
  intros request w.
  exact (proj1 (put_then_get_reads_update Sample.env request
                  Sample.one_note Sample.users Sample.html eq_refl eq_refl)).
Defined.

(** X11: deleting by a well-formed id removes that note and nothing else:
    every other note is as before and the user store is untouched. A stored
    note makes the number of notes drop by exactly one; an id that is not
    stored leaves the note store as it was. *)
Theorem delete_removes_one_note env {B} (request : Request B) ns us :
  valid_id env (params_id request) = true ->
  let id := params_id request in
  let w := serve (notesRouter.delete env request) ns us in
  note_store w !! id = None
  /\ (forall j, j <> id -> note_store w !! j = ns !! j)
  /\ (is_Some (ns !! id) -> S (size (note_store w)) = size ns)
  /\ (ns !! id = None -> note_store w = ns)
  /\ user_store w = us.
Proof.
  intros Hv id w.
  destruct (serve_delete env request ns us Hv) as (_ & Hn & Hu).
  fold id w in Hn, Hu. rewrite Hn, Hu.
  split; [apply lookup_delete_eq | ].
  split; [intros j Hj; now apply lookup_delete_ne | ].
  split; [ | split; [ | reflexivity]].
  - intros Hsome. rewrite map_size_delete_Some by assumption.
    destruct (ns !! id) as [n|] eqn:Hl; [ | now destruct Hsome].
    assert (size ns <> 0).
    { intros H0. apply map_size_empty_inv in H0. subst ns.
      now rewrite lookup_empty in Hl. }
    lia.
  - intros Hnone. now apply delete_id.
Qed.

Lemma delete_removes_one_note_witness :
  let request := Sample.note_request None Sample.note_id None None in
  S (size (note_store (serve (notesRouter.delete Sample.env request)
                         Sample.twins Sample.users)))
  = size Sample.twins.
Proof.
  intros request.
  destruct (delete_removes_one_note Sample.env request Sample.twins Sample.users
              eq_refl) as (_ & _ & H & _).
  apply H. exists Sample.html. reflexivity.
Defined.

(** X12: deleting a note does not unlink it from its owner. After the
    delete the get handler answers 404 for the id, while the owner's notes
    list still holds it. *)
Theorem delete_leaves_owner_link env {B} (request : Request B) ns us
    (n : Note) (uid : string) (u : User) :
  valid_id env (params_id request) = true ->
  ns !! params_id request = Some n ->
  user n = Some uid ->
  us !! uid = Some u ->
  params_id request ∈ notes u ->
  let id := params_id request in
  let w := serve (notesRouter.delete env request) ns us in
  client_sees w = Some (204, None)
  /\ client_sees (serve (notesRouter.get env request) (note_store w) (user_store w))
     = Some (404, None)
  /\ exists u', user_store w !! uid = Some u' /\ id ∈ notes u'.
Proof.
  intros Hv Hn Ho Hu Hin id w. subst id w.
  destruct (serve_delete env request ns us Hv) as (Hs & Hns & Hus).
  rewrite Hns, Hus.
  split; [exact Hs | split].
  - assert (Hrun := get_exec env request (delete (params_id request) ns) us).
    simpl in Hrun. rewrite Hv, lookup_delete_eq in Hrun.
    rewrite serve_quiet; rewrite Hrun; reflexivity.
  - now exists u.
Qed.

Lemma delete_leaves_owner_link_witness :
  let request := Sample.note_request None Sample.note_id None None in
  let w := serve (notesRouter.delete Sample.env request)
             Sample.one_note Sample.authors in
  client_sees (serve (notesRouter.get Sample.env request)
                 (note_store w) (user_store w)) = Some (404, None)
  /\ exists u', user_store w !! Sample.root_id = Some u'
                /\ Sample.note_id ∈ notes u'.
Proof.
  intros request w.
  destruct (delete_leaves_owner_link Sample.env request
              Sample.one_note Sample.authors Sample.html Sample.root_id
              Sample.author eq_refl eq_refl eq_refl eq_refl)
    as (_ & Hg & Hu).
  - apply list_elem_of_here.
  - exact (conj Hg Hu).
Defined.

End ByIdMore.

(** ** Creating notes, followed by other requests *)
Section CreateThen.
Implicit Types (env : Env) (ns : gmap string Note) (us : gmap string User).
Implicit Types (request : Request NoteBody).

(** The stores after a successful create. *)
Lemma post_created_stores env request ns us
    (token uid c : string) (p : Payload) (u : User) :
  getTokenFrom request = Some token ->
  jwt_verify env token = Some p ->
  payload_id p = Some uid ->
  uid <> "" ->
  valid_id env uid = true ->
  us !! uid = Some u ->
  body_content (body request) = Some c ->
  c <> "" ->
  let w := serve (notesRouter.post env request) ns us in
  let id := fresh (dom ns) in
  client_sees w
  = Some (201, Some (JNote id (mkNote c (Js.or_false (body_important (body request)))
                                 (Some uid))))
  /\ note_store w
     = <[id := mkNote c (Js.or_false (body_important (body request))) (Some uid)]> ns
  /\ user_store w
     = <[uid := mkUser (username u) (name u) (passwordHash u) (notes u ++ [id])]> us.
Proof.
  intros Htok Hver Hid Hne Hvalid Hu Hc Hcne w id. subst w.
  rewrite (post_exec_created env request ns us token uid c p u) by assumption.
  simpl. auto.
Qed.

(** X13: after a successful create the list handler shows one note more
    than were stored, among them the new note with its content, its
    importance and its owner's username and name. *)
Theorem post_then_list_shows_note env request ns us
    (token uid c : string) (p : Payload) (u : User) :
  getTokenFrom request = Some token ->
  jwt_verify env token = Some p ->
  payload_id p = Some uid ->
  uid <> "" ->
  valid_id env uid = true ->
  us !! uid = Some u ->
  body_content (body request) = Some c ->
  c <> "" ->
  let w := serve (notesRouter.post env request) ns us in
  exists l,
    client_sees (serve notesRouter.get_all (note_store w) (user_store w))
    = Some (200, Some (JNotes l))
    /\ length l = S (size ns)
    /\ mkPopulated (fresh (dom ns)) c (Js.or_false (body_important (body request)))
         (Some (uid, username u, name u)) ∈ l
    /\ c ∈ contents_of (client_sees (serve notesRouter.get_all
                                      (note_store w) (user_store w))).
Proof.
  intros Htok Hver Hid Hne Hvalid Hu Hc Hcne w.
  destruct (post_created_stores env request ns us token uid c p u
              Htok Hver Hid Hne Hvalid Hu Hc Hcne) as (_ & Hn & Hus).
  fold w in Hn, Hus.
  set (id := fresh (dom ns)) in *.
  set (n := mkNote c (Js.or_false (body_important (body request))) (Some uid)) in *.
  exists (populate (user_store w) <$> map_to_list (note_store w)).
  assert (Hin : mkPopulated id c (Js.or_false (body_important (body request)))
                  (Some (uid, username u, name u))
                ∈ populate (user_store w) <$> map_to_list (note_store w)).
  { apply list_elem_of_fmap. exists (id, n). split.
    - unfold populate. simpl. rewrite Hus, lookup_insert_eq. reflexivity.
    - apply elem_of_map_to_list. rewrite Hn. apply lookup_insert_eq. }
  split; [apply listed_notes | ].
  split.
  { rewrite length_fmap, length_map_to_list, Hn.
    apply map_size_insert_None, fresh_id_unused. }
  split; [exact Hin | ].
  rewrite listed_notes. simpl.
  apply list_elem_of_fmap. eexists. split; [ | exact Hin]. reflexivity.
Qed.

Lemma post_then_list_shows_note_witness :
  let request := Sample.note_request
                   (Sample.bearer ("id=" ++ Sample.root_id)) ""
                   (Some "x") (Some true) in
  let w := serve (notesRouter.post Sample.env request)
             Sample.one_note Sample.users in
  "x" ∈ contents_of (client_sees (serve notesRouter.get_all
                                    (note_store w) (user_store w))).
Proof.
  intros request w.
  destruct (post_then_list_shows_note Sample.env request
              Sample.one_note Sample.users
              ("id=" ++ Sample.root_id) Sample.root_id "x"
              (mkPayload (Some "root") (Some Sample.root_id)) Sample.root
              eq_refl eq_refl eq_refl ltac:(discriminate) eq_refl eq_refl
              eq_refl ltac:(discriminate))
    as (l & _ & _ & _ & Hc).
  exact Hc.
Defined.

(** X14: two successful creates by the same user append the two new ids to
    the user's notes list in the order of the requests; the ids differ and
    both notes are stored. *)
Theorem post_twice_appends_in_order env (first second : Request NoteBody) ns us
    (token token' uid c c' : string) (p p' : Payload) (u : User) :
  getTokenFrom first = Some token ->
  jwt_verify env token = Some p ->
  payload_id p = Some uid ->
  getTokenFrom second = Some token' ->
  jwt_verify env token' = Some p' ->
  payload_id p' = Some uid ->
  uid <> "" ->
  valid_id env uid = true ->
  us !! uid = Some u ->
  body_content (body first) = Some c -> c <> "" ->
  body_content (body second) = Some c' -> c' <> "" ->
  let w1 := serve (notesRouter.post env first) ns us in
  let w2 := serve (notesRouter.post env second) (note_store w1) (user_store w1) in
  exists (id1 id2 : string) (u2 : User),
    id1 <> id2
    /\ client_status w1 = Some 201 /\ client_status w2 = Some 201
    /\ user_store w2 !! uid = Some u2
    /\ notes u2 = (notes u ++ [id1; id2])%list
    /\ (exists n1, note_store w2 !! id1 = Some n1 /\ content n1 = c)
    /\ (exists n2, note_store w2 !! id2 = Some n2 /\ content n2 = c')
    /\ size (note_store w2) = S (S (size ns)).
Proof.
  intros Htok Hver Hid Htok' Hver' Hid' Hne Hvalid Hu Hc Hcne Hc' Hcne' w1 w2.
  destruct (post_created_stores env first ns us token uid c p u
              Htok Hver Hid Hne Hvalid Hu Hc Hcne) as (Hs1 & Hn1 & Hu1).
  fold w1 in Hs1, Hn1, Hu1.
  set (id1 := fresh (dom ns)) in *.
  set (u1 := mkUser (username u) (name u) (passwordHash u) (notes u ++ [id1])) in *.
  assert (Hlook : user_store w1 !! uid = Some u1).
  { rewrite Hu1. apply lookup_insert_eq. }
  destruct (post_created_stores env second (note_store w1) (user_store w1)
              token' uid c' p' u1
              Htok' Hver' Hid' Hne Hvalid Hlook Hc' Hcne') as (Hs2 & Hn2 & Hu2).
  fold w2 in Hs2, Hn2, Hu2.
  set (id2 := fresh (dom (note_store w1))) in *.
  assert (Hfresh2 : note_store w1 !! id2 = None) by apply fresh_id_unused.
  assert (Hdiff : id1 <> id2).
  { intros Heq. rewrite Hn1, <- Heq, lookup_insert_eq in Hfresh2. discriminate. }
  exists id1, id2. eexists.
  split; [exact Hdiff | ].
  split; [unfold client_status; now rewrite Hs1 | ].
  split; [unfold client_status; now rewrite Hs2 | ].
  split; [rewrite Hu2; apply lookup_insert_eq | ].
  split; [subst u1; simpl; now rewrite <- app_assoc | ].
  split.
  { exists (mkNote c (Js.or_false (body_important (body first))) (Some uid)).
    split; [ | reflexivity].
    rewrite Hn2, lookup_insert_ne by (intros Heq; now apply Hdiff).
    rewrite Hn1. apply lookup_insert_eq. }
  split.
  { exists (mkNote c' (Js.or_false (body_important (body second))) (Some uid)).
    split; [rewrite Hn2; apply lookup_insert_eq | reflexivity]. }
  rewrite Hn2, map_size_insert_None by exact Hfresh2.
  rewrite Hn1, map_size_insert_None by apply fresh_id_unused.
  reflexivity.
Qed.

Lemma post_twice_appends_in_order_witness :
  let request c := Sample.note_request
                     (Sample.bearer ("id=" ++ Sample.root_id)) ""
                     (Some c) None in
  let w1 := serve (notesRouter.post Sample.env (request "one"))
              Sample.one_note Sample.users in
  let w2 := serve (notesRouter.post Sample.env (request "two"))
              (note_store w1) (user_store w1) in
  exists (id1 id2 : string) (u2 : User),
    id1 <> id2
    /\ user_store w2 !! Sample.root_id = Some u2
    /\ notes u2 = [id1; id2].
Proof.
  intros request w1 w2.
  destruct (post_twice_appends_in_order Sample.env (request "one") (request "two")
              Sample.one_note Sample.users
              ("id=" ++ Sample.root_id) ("id=" ++ Sample.root_id)
              Sample.root_id "one" "two"
              (mkPayload (Some "root") (Some Sample.root_id))
              (mkPayload (Some "root") (Some Sample.root_id)) Sample.root
              eq_refl eq_refl eq_refl eq_refl eq_refl eq_refl
              ltac:(discriminate) eq_refl eq_refl
              eq_refl ltac:(discriminate) eq_refl ltac:(discriminate))
    as (id1 & id2 & u2 & Hd & _ & _ & Hl & Hnotes & _).
  exists id1, id2, u2. exact (conj Hd (conj Hl Hnotes)).
Defined.

(** X15: a token issued by the login handler is accepted by the create
    handler. When verification gives back what was signed, the token that a
    successful login answers with, sent as [Bearer <token>] with non-empty
    content, creates a note owned by the user who logged in and links it to
    that user. *)
Theorem login_token_creates_note env (login : Request LoginBody)
    (pid c : string) (imp : option bool) ns us (id : string) (u : User) :
  us !! id = Some u ->
  username u = body_username (body login) ->
  (forall id' u', us !! id' = Some u' ->
                  username u' = body_username (body login) -> id' = id) ->
  bcrypt_compare env (body_password (body login)) (passwordHash u) = true ->
  jwt_verify env (jwt_sign env (mkPayload (Some (username u)) (Some id)))
  = Some (mkPayload (Some (username u)) (Some id)) ->
  id <> "" ->
  valid_id env id = true ->
  c <> "" ->
  exists token,
    client_sees (serve (loginRouter.post env login) ns us)
    = Some (200, Some (JLogin token (username u) (name u)))
    /\ let create := mkRequest (Some ("Bearer " ++ token)) pid
                       (mkNoteBody (Some c) imp) in
       let w := serve (notesRouter.post env create) ns us in
       client_sees w
       = Some (201, Some (JNote (fresh (dom ns))
                            (mkNote c (Js.or_false imp) (Some id))))
       /\ note_store w !! fresh (dom ns) = Some (mkNote c (Js.or_false imp) (Some id))
       /\ exists u', user_store w !! id = Some u'
                     /\ notes u' = (notes u ++ [fresh (dom ns)])%list.
Proof.
  intros Hu Hn Huniq Hc Hrt Hne Hvalid Hcne.
  set (payload := mkPayload (Some (username u)) (Some id)) in *.
  exists (jwt_sign env payload).
  pose proof (findOne_unique us _ id u Hu Hn Huniq) as Hfind.
  pose proof (login_exec_match env login ns us (id, u) Hfind Hc) as Hrun.
  simpl in Hrun. fold payload in Hrun.
  split.
  { rewrite serve_quiet; rewrite Hrun; reflexivity. }
  intros create w.
  assert (Htok : getTokenFrom create = Some (jwt_sign env payload)).
  { apply getTokenFrom_bearer_unpacked. }
  destruct (post_created_stores env create ns us (jwt_sign env payload) id c
              payload u Htok Hrt eq_refl Hne Hvalid Hu eq_refl Hcne)
    as (Hs & Hns & Hus).
  fold w in Hs, Hns, Hus. simpl in Hs, Hns, Hus.
  split; [exact Hs | split].
  - rewrite Hns. apply lookup_insert_eq.
  - eexists. split; [rewrite Hus; apply lookup_insert_eq | reflexivity].
Qed.

Lemma login_token_creates_note_witness :
  exists token,
    client_sees (serve (loginRouter.post Sample.env
                          (Sample.login_request "root" "secret"))
                   Sample.one_note Sample.users)
    = Some (200, Some (JLogin token "root" None))
    /\ client_status
         (serve (notesRouter.post Sample.env
                   (mkRequest (Some ("Bearer " ++ token)) ""
                      (mkNoteBody (Some "x") None)))
            Sample.one_note Sample.users)
       = Some 201.
Proof.
  destruct (login_token_creates_note Sample.env
              (Sample.login_request "root" "secret") "" "x" None
              Sample.one_note Sample.users Sample.root_id Sample.root
              eq_refl eq_refl) as (token & Hlogin & Hcreate).
  - intros id' u' Hl _. unfold Sample.users in Hl.
    now apply lookup_singleton_Some in Hl as [<- _].
  - reflexivity.
  - reflexivity.
  - discriminate.
  - reflexivity.
  - discriminate.
  - exists token. split; [exact Hlogin | ].
    destruct Hcreate as (Hs & _). unfold client_status. now rewrite Hs.
Defined.

End CreateThen.

(** ** Which handlers look at the token *)
Section Unauthenticated.
Implicit Types (env : Env) (ns : gmap string Note) (us : gmap string User).

(** X16: reading, updating and deleting a note by id do not depend on the
    authorization header: the handlers run the same with any header or
    none, and they never call the token verification. *)
Theorem by_id_handlers_ignore_authorization env
    (auth auth' : option string) (id : string) (b : NoteBody) ns us :
  notesRouter.get env (mkRequest auth id b) = notesRouter.get env (mkRequest auth' id b)
  /\ notesRouter.put env (mkRequest auth id b) = notesRouter.put env (mkRequest auth' id b)
  /\ notesRouter.delete env (mkRequest auth id b)
     = notesRouter.delete env (mkRequest auth' id b)
  /\ forall t,
       (Call_jwt_verify t ∉ calls (exec (notesRouter.get env (mkRequest auth id b))
                                     (initial ns us)))
       /\ (Call_jwt_verify t ∉ calls (exec (notesRouter.put env (mkRequest auth id b))
                                        (initial ns us)))
       /\ (Call_jwt_verify t ∉ calls (exec (notesRouter.delete env (mkRequest auth id b))
                                        (initial ns us))).
Proof.
  repeat (split; [reflexivity | ]).
  intros t. rewrite get_exec, put_exec, delete_exec. simpl.
  destruct (valid_id env id); simpl; destruct (ns !! id); simpl;
    repeat split; intros Hin%list_elem_of_singleton; discriminate.
Qed.

Lemma by_id_handlers_ignore_authorization_witness :
  notesRouter.delete Sample.env
    (mkRequest None Sample.note_id (mkNoteBody None None))
  = notesRouter.delete Sample.env
      (mkRequest (Sample.bearer "forged") Sample.note_id (mkNoteBody None None)).
Proof.
  destruct (by_id_handlers_ignore_authorization Sample.env
              None (Sample.bearer "forged") Sample.note_id (mkNoteBody None None)
              Sample.one_note Sample.users) as (_ & _ & H & _).
  exact H.
Defined.

End Unauthenticated.
